(** * Cosmos-backed chat message store: a shallow embedding

    Embedding of [agent_framework_cosmos/_chat_message_store.py]:
    the persisted-state model [CosmosStoreState], the settings model
    [CosmosDBNoSqlSettings] and the store [CosmosChatMessageStore], together
    with a model of the document-store client the store talks to.

    Python values are a small universe [PyVal]; dictionaries are
    insertion-ordered association lists; the databases, containers and items
    of the Cosmos account are finite maps; asynchronous methods are run to
    completion one at a time (the store is driven by one caller), so a method
    is a function from the state before the call to an outcome and the state
    after it, in a state-and-exception monad. *)

From Stdlib Require Import ZArith Ascii String List.
From stdpp Require Import base option list strings gmap.

Local Open Scope string_scope.
Local Open Scope list_scope.

(** ** Python values *)

(** Modelled from the spec: [ChatMessage] belongs to the surrounding
    framework and is not part of these sources; the spec describes it as an
    opaque serializable record (role, content, metadata). *)
Record ChatMessage := {
  role : string;
  content : string;
  metadata : list (string * string);
}.

#[local] Set Warnings "-register-all".

Inductive PyVal :=
| PNone
| PBool (b : bool)
| PInt (z : Z)
| PStr (s : string)
| PList (l : list PyVal)
| PDict (d : list (string * PyVal))
| PMsg (m : ChatMessage).

(** A [dict] with string keys. *)
Abbreviation Dict := (list (string * PyVal)).

Section dict.
Context {V : Type}.

(** [d.get(k)] *)
Fixpoint dict_get (k : string) (d : list (string * V)) : option V :=
  match d with
  | [] => None
  | (k', v) :: d' => if String.eqb k k' then Some v else dict_get k d'
  end.

(** [k in d] *)
Definition dict_mem (k : string) (d : list (string * V)) : bool :=
  match dict_get k d with Some _ => true | None => false end.

(** [d[k] = v]: an existing key keeps its position, a new key goes last. *)
Fixpoint dict_set (k : string) (v : V) (d : list (string * V)) : list (string * V) :=
  match d with
  | [] => [(k, v)]
  | (k', v') :: d' =>
      if String.eqb k k' then (k, v) :: d' else (k', v') :: dict_set k v d'
  end.
End dict.

(** ** Exceptions and the method monad *)

(** The text of a [ServiceResponseException]: which operation failed, on
    which database, container or item (the f-strings of the source). *)
Inductive Failure :=
| FailedCheckDatabase (database : string)
| FailedCheckContainer (container database : string)
| FailedCreate (database container : string)
| FailedGetContainerClient (container database : string)
| FailedGetDatabaseClient (database : string)
| FailedReadItem (item : option string) (container database : string).

Inductive Exn :=
| TypeError
| ValidationError
| CosmosResourceNotFoundError
| CosmosResourceExistsError
| CosmosHttpResponseError (status : Z)
| ServiceInvalidExecutionSettingsError (cause : Exn)
| ServiceResponseException (what : Failure) (cause : Exn).

Inductive Result (A : Type) :=
| Ok (a : A)
| Raise (e : Exn).
Arguments Ok {A} a.
Arguments Raise {A} e.

#[global] Instance Result_ret : MRet Result := fun A a => Ok a.
#[global] Instance Result_bind : MBind Result := fun A B k r =>
  match r with Ok a => k a | Raise e => Raise e end.

(** A computation over a state [S]: the outcome and the state it leaves. *)
Definition M (S A : Type) : Type := S -> Result A * S.

#[global] Instance M_ret {S} : MRet (M S) := fun A a s => (Ok a, s).
#[global] Instance M_bind {S} : MBind (M S) := fun A B k m s =>
  match m s with
  | (Ok a, s') => k a s'
  | (Raise e, s') => (Raise e, s')
  end.

Definition raise {S A} (e : Exn) : M S A := fun s => (Raise e, s).

(** [try: m except Exception as e: h e] *)
Definition try_except {S A} (m : M S A) (h : Exn -> M S A) : M S A :=
  fun s => match m s with
           | (Ok a, s') => (Ok a, s')
           | (Raise e, s') => h e s'
           end.

Definition get {S} : M S S := fun s => (Ok s, s).
Definition modify {S} (f : S -> S) : M S unit := fun s => (Ok tt, f s).

(** Run a computation on a component of the state. *)
Definition zoom {S T A} (proj : S -> T) (upd : T -> S -> S) (m : M T A) : M S A :=
  fun s => let (r, t) := m (proj s) in (r, upd t s).

(** A pure step that may raise. *)
Definition lift {S A} (r : Result A) : M S A := fun s => (r, s).

Fixpoint rmapM {A B} (f : A -> Result B) (l : list A) : Result (list B) :=
  match l with
  | [] => Ok []
  | x :: l' => y ← f x; ys ← rmapM f l'; Ok (y :: ys)
  end.

(** ** ChatMessage: validation and dump *)

Module ChatMessageModel.

Definition str_field (v : PyVal) : Result string :=
  match v with PStr s => Ok s | _ => Raise ValidationError end.

Definition metadata_entry (kv : string * PyVal) : Result (string * string) :=
  s ← str_field kv.2; Ok (kv.1, s).

(** Modelled from the spec: a message is accepted as an instance, or as
    the mapping an earlier dump produced. *)
Definition model_validate (v : PyVal) : Result ChatMessage :=
  match v with
  | PMsg m => Ok m
  | PDict d =>
      match dict_get "role" d, dict_get "content" d with
      | Some r, Some c =>
          r' ← str_field r;
          c' ← str_field c;
          md' ← match dict_get "metadata" d with
                | None => Ok []
                | Some (PDict md) => rmapM metadata_entry md
                | Some _ => Raise ValidationError
                end;
          Ok {| role := r'; content := c'; metadata := md' |}
      | _, _ => Raise ValidationError
      end
  | _ => Raise ValidationError
  end.

Definition model_dump (m : ChatMessage) : PyVal :=
  PDict [("role", PStr (role m));
         ("content", PStr (content m));
         ("metadata", PDict (map (fun kv => (kv.1, PStr kv.2)) (metadata m)))].

End ChatMessageModel.

(** Dumping a value: model instances inside it become mappings. *)
Fixpoint dump_value (v : PyVal) : PyVal :=
  match v with
  | PList l => PList (map dump_value l)
  | PDict d => PDict (map (fun kv => (kv.1, dump_value kv.2)) d)
  | PMsg m => ChatMessageModel.model_dump m
  | _ => v
  end.

(** ** CosmosStoreState *)

Module CosmosStoreState.

Record t := {
  id : option string;
  thread_id : string;
  additional_properties : Dict;
  messages : list ChatMessage;
}.

(** The [mode="before"] validator, on the raw mapping. *)
Definition set_id_from_thread_id (values : Dict) : Dict :=
  if dict_mem "thread_id" values && negb (dict_mem "id" values) then
    match dict_get "thread_id" values with
    | Some v => dict_set "id" v values
    | None => values
    end
  else values.

(** Field validation of the declared types, after the validator ran:
    [id: str | None = None], [thread_id: str],
    [additional_properties: dict[str, Any] = {}],
    [messages: list[ChatMessage] = []]. Keys that are no field are
    ignored. *)
Definition validate_fields (values : Dict) : Result t :=
  i ← match dict_get "id" values with
      | None | Some PNone => Ok None
      | Some (PStr s) => Ok (Some s)
      | Some _ => Raise ValidationError
      end;
  t ← match dict_get "thread_id" values with
      | Some (PStr s) => Ok s
      | _ => Raise ValidationError
      end;
  ap ← match dict_get "additional_properties" values with
       | None => Ok []
       | Some (PDict d) => Ok d
       | Some _ => Raise ValidationError
       end;
  ms ← match dict_get "messages" values with
       | None => Ok []
       | Some (PList l) => rmapM ChatMessageModel.model_validate l
       | Some _ => Raise ValidationError
       end;
  Ok {| id := i; thread_id := t; additional_properties := ap; messages := ms |}.

(** The constructor call with keyword arguments [values], and
    [model_validate] of a mapping. *)
Definition construct (values : Dict) : Result t :=
  validate_fields (set_id_from_thread_id values).

(** What [model_validate] is given: an instance of the model, which is
    returned as it is (the validator finds no key in it), or a mapping. *)
Inductive Input :=
| Instance (st : t)
| Mapping (values : Dict).

Definition model_validate (x : Input) : Result t :=
  match x with
  | Instance st => Ok st
  | Mapping values => construct values
  end.

Definition model_dump (st : t) : Dict :=
  [("id", match id st with Some s => PStr s | None => PNone end);
   ("thread_id", PStr (thread_id st));
   ("additional_properties",
    PDict (map (fun kv => (kv.1, dump_value kv.2)) (additional_properties st)));
   ("messages", PList (map ChatMessageModel.model_dump (messages st)))].

End CosmosStoreState.

(** ** CosmosDBNoSqlSettings *)

Module CosmosDBNoSqlSettings.

Definition env_prefix : string := "AZURE_COSMOS_DB_NO_SQL_".

Record t := {
  database_name : string;
  container_name : string;
}.

(** Modelled from the spec: the settings base class [AFBaseSettings] is
    not part of these sources. A field declared [str] accepts every string
    as it is and no other value; an argument that is [None] counts as not
    given and is resolved from the environment variable named by
    [env_prefix] and the field; a required field that stays unresolved
    fails validation. *)
Definition field (environ : gmap string string) (variable : string) (v : PyVal)
  : Result string :=
  match v with
  | PStr s => Ok s
  | PNone =>
      match environ !! (env_prefix +:+ variable) with
      | Some s => Ok s
      | None => Raise ValidationError
      end
  | _ => Raise ValidationError
  end.

Definition construct (environ : gmap string string)
    (database_name container_name : PyVal) : Result t :=
  d ← field environ "DATABASE_NAME" database_name;
  c ← field environ "CONTAINER_NAME" container_name;
  Ok {| database_name := d; container_name := c |}.

End CosmosDBNoSqlSettings.

(** ** The document-store client *)

(** Modelled from the spec: the Cosmos client is an external collaborator;
    the operations are those of the table of consumed operations (read
    database or container metadata, create database or container, read item
    by id and partition key value, upsert item), each failing with the
    not-found or conflict error the table names. *)
Module Cosmos.

Record Container := {
  partition_key : string;
  items : gmap (string * option string) Dict;
}.

Abbreviation Databases := (gmap string (gmap string Container)).

(** The account behind the client: its databases, and the outcome the
    network imposes on each coming request ([Some e]: the request fails
    with [e] and does nothing; [None], or no entry: it is served). *)
Record Account := {
  databases : Databases;
  faults : list (option Exn);
}.

(** The partition key value of a document under a partition key path
    [/field]: the string held by that field, if any. *)
Definition partition_value (path : string) (doc : Dict) : option string :=
  match path with
  | String "/"%char field =>
      match dict_get field doc with
      | Some (PStr s) => Some s
      | _ => None
      end
  | _ => None
  end.

(** One request to the service. *)
Definition request {A} (serve : Databases -> Result A * Databases) : M Account A :=
  fun acc =>
    match faults acc with
    | Some e :: rest => (Raise e, {| databases := databases acc; faults := rest |})
    | rest =>
        let (r, dbs) := serve (databases acc) in
        (r, {| databases := dbs; faults := tail rest |})
    end.

Abbreviation DatabaseProxy := string.
Abbreviation ContainerProxy := (string * string)%type.

(** Handles are built without any request. *)
Definition get_database_client (name : string) : DatabaseProxy := name.
Definition get_container_client (database : DatabaseProxy) (name : string)
  : ContainerProxy := (database, name).

Definition find_container (dbs : Databases) (c : ContainerProxy) : option Container :=
  db ← dbs !! c.1; db !! c.2.

Definition read_database (database : DatabaseProxy) : M Account unit :=
  request (fun dbs =>
    match dbs !! database with
    | Some _ => (Ok tt, dbs)
    | None => (Raise CosmosResourceNotFoundError, dbs)
    end).

Definition create_database (name : string) : M Account unit :=
  request (fun dbs =>
    match dbs !! name with
    | Some _ => (Raise CosmosResourceExistsError, dbs)
    | None => (Ok tt, <[name := ∅]> dbs)
    end).

Definition read_container (c : ContainerProxy) : M Account unit :=
  request (fun dbs =>
    match find_container dbs c with
    | Some _ => (Ok tt, dbs)
    | None => (Raise CosmosResourceNotFoundError, dbs)
    end).

Definition create_container (database : DatabaseProxy) (name path : string)
  : M Account unit :=
  request (fun dbs =>
    match dbs !! database with
    | None => (Raise CosmosResourceNotFoundError, dbs)
    | Some db =>
        match db !! name with
        | Some _ => (Raise CosmosResourceExistsError, dbs)
        | None =>
            (Ok tt,
             <[database := <[name := {| partition_key := path; items := ∅ |}]> db]> dbs)
        end
    end).

Definition read_item (c : ContainerProxy) (item partition : string) : M Account Dict :=
  request (fun dbs =>
    match find_container dbs c with
    | None => (Raise CosmosResourceNotFoundError, dbs)
    | Some cont =>
        match items cont !! (item, Some partition) with
        | Some doc => (Ok doc, dbs)
        | None => (Raise CosmosResourceNotFoundError, dbs)
        end
    end).

(** Insert or replace the document under its id and partition key value;
    a body without a string id is a bad request. *)
Definition upsert_item (c : ContainerProxy) (body : Dict) : M Account unit :=
  request (fun dbs =>
    match dbs !! c.1 with
    | None => (Raise CosmosResourceNotFoundError, dbs)
    | Some db =>
        match db !! c.2 with
        | None => (Raise CosmosResourceNotFoundError, dbs)
        | Some cont =>
            match dict_get "id" body with
            | Some (PStr i) =>
                let key := (i, partition_value (partition_key cont) body) in
                let cont' := {| partition_key := partition_key cont;
                                items := <[key := body]> (items cont) |} in
                (Ok tt, <[c.1 := <[c.2 := cont']> db]> dbs)
            | _ => (Raise (CosmosHttpResponseError 400), dbs)
            end
        end
    end).

End Cosmos.

(** ** CosmosChatMessageStore *)

Module CosmosChatMessageStore.

(** The attributes [__init__] sets on an instance. The client handle is
    the access to the one account of the process state and carries no data
    of its own. [_messages] is no attribute of an instance: the class body
    binds it, once, to one list object, [__init__] does not assign it and
    no method does, so every instance reads and extends the list of the
    class (see [Process]). *)
Record t := {
  database_name : string;
  container_name : string;
  thread_id : string;
  partition_key : string;
  _create_container_and_database : bool;
  _save_one_every_message : bool;
}.

(** The state of the running program outside the instance: the
    environment variables, the list object bound to the class attribute
    [CosmosChatMessageStore._messages], and the Cosmos account. *)
Record Process := {
  environ : gmap string string;
  _messages : list ChatMessage;
  account : Cosmos.Account;
}.

(** A method runs on [self] and the process. *)
Abbreviation State := (t * Process)%type.

Definition self : M State t := fun s => (Ok s.1, s).

Definition set_thread_id (v : string) : M State unit :=
  modify (fun s : State =>
    ({| database_name := database_name s.1;
        container_name := container_name s.1;
        thread_id := v;
        partition_key := partition_key s.1;
        _create_container_and_database := _create_container_and_database s.1;
        _save_one_every_message := _save_one_every_message s.1 |}, s.2)).

Definition set_create_container_and_database (v : bool) : M State unit :=
  modify (fun s : State =>
    ({| database_name := database_name s.1;
        container_name := container_name s.1;
        thread_id := thread_id s.1;
        partition_key := partition_key s.1;
        _create_container_and_database := v;
        _save_one_every_message := _save_one_every_message s.1 |}, s.2)).

(** [self._messages] *)
Definition messages : M State (list ChatMessage) := fun s => (Ok (_messages s.2), s).

(** [self._messages.extend(more)] *)
Definition extend_messages (more : list ChatMessage) : M State unit :=
  modify (fun s : State =>
    (s.1, {| environ := environ s.2;
             _messages := _messages s.2 ++ more;
             account := account s.2 |})).

(** [await] of a request of [self.cosmos_client]. *)
Definition await {A} (m : M Cosmos.Account A) : M State A :=
  zoom (fun s : State => account s.2)
       (fun acc (s : State) =>
          (s.1, {| environ := environ s.2;
                   _messages := _messages s.2;
                   account := acc |}))
       m.

Definition default_database_name : string := "chat_messages_db".
Definition default_container_name : string := "chat_messages_container".
Definition default_partition_key : string := "/thread_id".

(** [CosmosChatMessageStore(cosmos_client, ...)]. [uuid] is what [uuid4()]
    returns when it is called. *)
Definition __init__ (database_name container_name : PyVal) (partition_key : string)
    (thread_id : option string)
    (save_one_every_message create_container_and_database : bool)
    (uuid : string) : M Process t :=
  fun p =>
    match CosmosDBNoSqlSettings.construct (environ p) database_name container_name with
    | Raise ValidationError => (Raise (ServiceInvalidExecutionSettingsError ValidationError), p)
    | Raise e => (Raise e, p)
    | Ok settings =>
        (Ok {| database_name := CosmosDBNoSqlSettings.database_name settings;
               container_name := CosmosDBNoSqlSettings.container_name settings;
               thread_id := match thread_id with
                            | Some s => if String.eqb s "" then uuid else s
                            | None => uuid
                            end;
               partition_key := partition_key;
               _create_container_and_database := create_container_and_database;
               _save_one_every_message := save_one_every_message |}, p)
    end.

Definition _does_database_exist : M State bool :=
  try_except
    (s ← self;
     await (Cosmos.read_database (Cosmos.get_database_client (database_name s)));;
     mret true)
    (fun e =>
       match e with
       | CosmosResourceNotFoundError => mret false
       | _ =>
           s ← self;
           raise (ServiceResponseException (FailedCheckDatabase (database_name s)) e)
       end).

Definition _does_container_exist : M State bool :=
  try_except
    (s ← self;
     let database := Cosmos.get_database_client (database_name s) in
     await (Cosmos.read_container (Cosmos.get_container_client database (container_name s)));;
     mret true)
    (fun e =>
       match e with
       | CosmosResourceNotFoundError => mret false
       | _ =>
           s ← self;
           raise (ServiceResponseException
                    (FailedCheckContainer (container_name s) (database_name s)) e)
       end).

Definition _create_database_and_container_if_not_exists : M State unit :=
  try_except
    (s ← self;
     db_exists ← _does_database_exist;
     (if negb db_exists
      then await (Cosmos.create_database (database_name s))
      else mret tt);;
     c_exists ← _does_container_exist;
     if negb c_exists
     then
       let database := Cosmos.get_database_client (database_name s) in
       await (Cosmos.create_container database (container_name s) (partition_key s))
     else mret tt)
    (fun e =>
       s ← self;
       raise (ServiceResponseException
                (FailedCreate (database_name s) (container_name s)) e)).

Definition _get_database_client (database_name : string) : M State Cosmos.DatabaseProxy :=
  try_except
    (mret (Cosmos.get_database_client database_name))
    (fun e => raise (ServiceResponseException (FailedGetDatabaseClient database_name) e)).

Definition _get_container_client : M State Cosmos.ContainerProxy :=
  try_except
    (s ← self;
     database ← _get_database_client (database_name s);
     mret (Cosmos.get_container_client database (container_name s)))
    (fun e =>
       s ← self;
       raise (ServiceResponseException
                (FailedGetContainerClient (container_name s) (database_name s)) e)).

Definition list_messages : M State (list ChatMessage) := messages.

(** The keyword arguments of the [CosmosStoreState(...)] call in
    [serialize_state]: a keyword given twice is a [TypeError]. *)
Definition state_arguments (thread_id : string) (msgs : list ChatMessage)
    (kwargs : Dict) : Result Dict :=
  if dict_mem "id" kwargs || dict_mem "thread_id" kwargs || dict_mem "messages" kwargs
  then Raise TypeError
  else Ok ([("id", PStr thread_id);
            ("thread_id", PStr thread_id);
            ("messages", PList (map PMsg msgs))] ++ kwargs)%list.

Definition serialize_state (kwargs : Dict) : M State string :=
  s ← self;
  (if _create_container_and_database s
   then _create_database_and_container_if_not_exists;;
        set_create_container_and_database false
   else mret tt);;
  s ← self;
  msgs ← messages;
  chat_message_store_state ←
    lift (values ← state_arguments (thread_id s) msgs kwargs;
          CosmosStoreState.construct values);
  container_client ← _get_container_client;
  let serialized_state := CosmosStoreState.model_dump chat_message_store_state in
  await (Cosmos.upsert_item container_client serialized_state);;
  s ← self;
  mret (thread_id s).

Definition add_messages (msgs : list ChatMessage) : M State unit :=
  extend_messages msgs;;
  s ← self;
  if _save_one_every_message s
  then serialize_state [];; mret tt
  else mret tt.

(** The validation options [**kwargs] of the second [model_validate] are
    not modelled: the call is the one without options. *)
Definition deserialize_state (serialized_store_state : CosmosStoreState.Input)
  : M State unit :=
  chat_message_store_state ← lift (CosmosStoreState.model_validate serialized_store_state);
  container_client ← _get_container_client;
  stored_state_item ←
    try_except
      (await (Cosmos.read_item container_client
                (CosmosStoreState.thread_id chat_message_store_state)
                (CosmosStoreState.thread_id chat_message_store_state)))
      (fun e =>
         s ← self;
         raise (ServiceResponseException
                  (FailedReadItem (CosmosStoreState.id chat_message_store_state)
                     (container_name s) (database_name s)) e));
  deserialized_state ←
    lift (CosmosStoreState.model_validate (CosmosStoreState.Mapping stored_state_item));
  set_thread_id (CosmosStoreState.thread_id deserialized_state);;
  extend_messages (CosmosStoreState.messages deserialized_state).

End CosmosChatMessageStore.

(** ** Vocabulary of the properties *)

(** The error classes callers branch on. A wrapped error is of the class of
    the wrapper, whatever its cause. *)
Definition is_ConfigurationError (e : Exn) : bool :=
  match e with ServiceInvalidExecutionSettingsError _ => true | _ => false end.

Definition is_PersistenceError (e : Exn) : bool :=
  match e with ServiceResponseException _ _ => true | _ => false end.

Definition is_NotFoundError (e : Exn) : bool :=
  match e with CosmosResourceNotFoundError => true | _ => false end.

(** The fault, if any, that the network imposes on the next request. *)
Definition next_fault (acc : Cosmos.Account) : option Exn :=
  match Cosmos.faults acc with
  | Some e :: _ => Some e
  | _ => None
  end.

(** The databases of an account with the names of their containers: what
    creation changes and an upsert does not. *)
Definition resources (dbs : Cosmos.Databases) : gmap string (gset string) :=
  dom <$> dbs.

(** A computation whose state after is related to the state before,
    whatever the outcome. *)
Definition respects {S A} (R : relation S) (m : M S A) : Prop :=
  forall s, R s (m s).2.

Module Frame.
Import CosmosChatMessageStore.

(** Nothing of the instance changes but the pending-creation flag, which
    is at most cleared; buffer and environment stay. *)
Record serialize (s s' : State) : Prop := {
  buffer : _messages s'.2 = _messages s.2;
  thread : thread_id s'.1 = thread_id s.1;
  database : database_name s'.1 = database_name s.1;
  container : container_name s'.1 = container_name s.1;
  partition : partition_key s'.1 = partition_key s.1;
  eager : _save_one_every_message s'.1 = _save_one_every_message s.1;
  environment : environ s'.2 = environ s.2;
  pending : _create_container_and_database s'.1 = true ->
            _create_container_and_database s.1 = true;
}.

(** No document, container or database is written. *)
Definition no_write (s s' : State) : Prop :=
  Cosmos.databases (account s'.2) = Cosmos.databases (account s.2).

(** The configuration of the instance stays. *)
Record configuration (s s' : State) : Prop := {
  cfg_database : database_name s'.1 = database_name s.1;
  cfg_container : container_name s'.1 = container_name s.1;
  cfg_partition : partition_key s'.1 = partition_key s.1;
  cfg_eager : _save_one_every_message s'.1 = _save_one_every_message s.1;
  cfg_pending : _create_container_and_database s'.1 = _create_container_and_database s.1;
}.

(** No database and no container is created. *)
Definition no_creation (s s' : State) : Prop :=
  resources (Cosmos.databases (account s'.2)) = resources (Cosmos.databases (account s.2)).
End Frame.

(** The calls a caller makes on one store, and a session of them: a call
    that raises leaves the state it reached, and the caller goes on. *)
Inductive Call :=
| AddMessages (msgs : list ChatMessage)
| ListMessages
| DeserializeState (ref : CosmosStoreState.Input)
| SerializeState (kwargs : Dict).

Definition is_serialize (c : Call) : bool :=
  match c with SerializeState _ => true | _ => false end.

Definition call (c : Call) (s : CosmosChatMessageStore.State) : CosmosChatMessageStore.State :=
  match c with
  | AddMessages msgs => (CosmosChatMessageStore.add_messages msgs s).2
  | ListMessages => (CosmosChatMessageStore.list_messages s).2
  | DeserializeState ref => (CosmosChatMessageStore.deserialize_state ref s).2
  | SerializeState kwargs => (CosmosChatMessageStore.serialize_state kwargs s).2
  end.

Definition session (cs : list Call) (s : CosmosChatMessageStore.State)
  : CosmosChatMessageStore.State :=
  fold_left (fun s c => call c s) cs s.

(** The second half of [serialize_state], from the construction of the
    document to the return: what is left of the method once the
    pending-creation step is over. *)
Definition persist (kwargs : Dict) : M CosmosChatMessageStore.State string :=
  s ← CosmosChatMessageStore.self;
  msgs ← CosmosChatMessageStore.messages;
  chat_message_store_state ←
    lift (values ← CosmosChatMessageStore.state_arguments
                     (CosmosChatMessageStore.thread_id s) msgs kwargs;
          CosmosStoreState.construct values);
  container_client ← CosmosChatMessageStore._get_container_client;
  let serialized_state := CosmosStoreState.model_dump chat_message_store_state in
  CosmosChatMessageStore.await (Cosmos.upsert_item container_client serialized_state);;
  s ← CosmosChatMessageStore.self;
  mret (CosmosChatMessageStore.thread_id s).

(** The document [serialize_state()] writes for a thread and its messages. *)
Definition document (thread_id : string) (msgs : list ChatMessage) : Dict :=
  CosmosStoreState.model_dump
    {| CosmosStoreState.id := Some thread_id;
       CosmosStoreState.thread_id := thread_id;
       CosmosStoreState.additional_properties := [];
       CosmosStoreState.messages := msgs |}.


(** The store after a restore that found [thread_id]. *)
Definition restored (thread_id : string) (s : CosmosChatMessageStore.t)
  : CosmosChatMessageStore.t :=
  {| CosmosChatMessageStore.database_name := CosmosChatMessageStore.database_name s;
     CosmosChatMessageStore.container_name := CosmosChatMessageStore.container_name s;
     CosmosChatMessageStore.thread_id := thread_id;
     CosmosChatMessageStore.partition_key := CosmosChatMessageStore.partition_key s;
     CosmosChatMessageStore._create_container_and_database :=
       CosmosChatMessageStore._create_container_and_database s;
     CosmosChatMessageStore._save_one_every_message :=
       CosmosChatMessageStore._save_one_every_message s |}.

(** The account after one request that changed no database. *)
Definition served (acc : Cosmos.Account) : Cosmos.Account :=
  {| Cosmos.databases := Cosmos.databases acc;
     Cosmos.faults := tail (Cosmos.faults acc) |}.

(** The process with another state of the account. *)
Definition with_account (acc : Cosmos.Account) (p : CosmosChatMessageStore.Process)
  : CosmosChatMessageStore.Process :=
  {| CosmosChatMessageStore.environ := CosmosChatMessageStore.environ p;
     CosmosChatMessageStore._messages := CosmosChatMessageStore._messages p;
     CosmosChatMessageStore.account := acc |}.

(** The account after the upsert of a document into container [c], stored
    there under id and partition key value [key]. *)
Definition upserted (c : Cosmos.ContainerProxy) (key : string * option string)
    (doc : Dict) (acc : Cosmos.Account) : Cosmos.Account :=
  {| Cosmos.databases :=
       match Cosmos.databases acc !! c.1 with
       | Some db =>
           match db !! c.2 with
           | Some cont =>
               <[c.1 := <[c.2 := {| Cosmos.partition_key := Cosmos.partition_key cont;
                                    Cosmos.items := <[key := doc]> (Cosmos.items cont) |}]> db]>
                 (Cosmos.databases acc)
           | None => Cosmos.databases acc
           end
       | None => Cosmos.databases acc
       end;
     Cosmos.faults := tail (Cosmos.faults acc) |}.

Definition container_exists (dbs : Cosmos.Databases) (c : Cosmos.ContainerProxy) : bool :=
  match Cosmos.find_container dbs c with Some _ => true | None => false end.

(** ** Concrete stores, accounts and messages *)

Module Scenario.
Import CosmosChatMessageStore.

Definition A : ChatMessage := {| role := "user"; content := "A"; metadata := [] |}.
Definition B : ChatMessage :=
  {| role := "assistant"; content := "B"; metadata := [("model", "m")] |}.

(** An account with nothing in it, on a network that serves every request. *)
Definition empty_account : Cosmos.Account :=
  {| Cosmos.databases := ∅; Cosmos.faults := [] |}.

(** An account with the default database and container of the store, the
    container partitioned by thread identifier and empty. *)
Definition ready_account : Cosmos.Account :=
  {| Cosmos.databases :=
       {[ default_database_name :=
            {[ default_container_name :=
                 {| Cosmos.partition_key := default_partition_key;
                    Cosmos.items := ∅ |} ]} ]};
     Cosmos.faults := [] |}.

(** An empty account on a network that fails the fourth request. *)
Definition flaky_account : Cosmos.Account :=
  {| Cosmos.databases := ∅;
     Cosmos.faults := [None; None; None; Some (CosmosHttpResponseError 503)] |}.

(** The ready account after the thread [T1] with messages [A; B] was saved. *)
Definition saved_account : Cosmos.Account :=
  {| Cosmos.databases :=
       {[ default_database_name :=
            {[ default_container_name :=
                 {| Cosmos.partition_key := default_partition_key;
                    Cosmos.items := {[ ("T1", Some "T1") := document "T1" [A; B] ]} |} ]} ]};
     Cosmos.faults := [] |}.

Definition process (buffer : list ChatMessage) (acc : Cosmos.Account) : Process :=
  {| environ := ∅; _messages := buffer; account := acc |}.

(** A store on the default database and container. *)
Definition store (thread_id : string) (eager create : bool) : t :=
  {| database_name := default_database_name;
     container_name := default_container_name;
     thread_id := thread_id;
     partition_key := default_partition_key;
     _create_container_and_database := create;
     _save_one_every_message := eager |}.

Definition default_container : Cosmos.ContainerProxy :=
  (default_database_name, default_container_name).
End Scenario.

(** ** Vocabulary of the further properties *)

Definition database_exists (dbs : Cosmos.Databases) (name : string) : bool :=
  match dbs !! name with Some _ => true | None => false end.

(** The container [create_container] makes. *)
Definition new_container (path : string) : Cosmos.Container :=
  {| Cosmos.partition_key := path; Cosmos.items := ∅ |}.

(** Every container there is stays, with its partition key path and all
    its documents. *)
Definition keeps_containers (s s' : CosmosChatMessageStore.State) : Prop :=
  forall c cont,
    Cosmos.find_container (Cosmos.databases (CosmosChatMessageStore.account s.2)) c
      = Some cont ->
    Cosmos.find_container (Cosmos.databases (CosmosChatMessageStore.account s'.2)) c
      = Some cont.

(** Every container there is stays, with its partition key path and all
    its documents but those whose id is [T]. *)
Definition keeps_other_documents (T : string) (s s' : CosmosChatMessageStore.State)
  : Prop :=
  forall c cont,
    Cosmos.find_container (Cosmos.databases (CosmosChatMessageStore.account s.2)) c
      = Some cont ->
    exists cont',
      Cosmos.find_container (Cosmos.databases (CosmosChatMessageStore.account s'.2)) c
        = Some cont' /\
      Cosmos.partition_key cont' = Cosmos.partition_key cont /\
      forall key : string * option string,
        key.1 <> T -> Cosmos.items cont' !! key = Cosmos.items cont !! key.

(** A value that holds no model instance: what a dump is made of. *)
Fixpoint is_plain (v : PyVal) : bool :=
  match v with
  | PList l => forallb is_plain l
  | PDict d => forallb (fun kv => is_plain kv.2) d
  | PMsg _ => false
  | _ => true
  end.

(** * Properties *)

(** ** The monad *)

Section monad.
Context {S : Type}.

Lemma run_bind {A B} (m : M S A) (k : A -> M S B) (s : S) :
  (m ≫= k) s = match m s with
               | (Ok a, s') => k a s'
               | (Raise e, s') => (Raise e, s')
               end.
Proof. reflexivity. Qed.

Lemma run_ret {A} (a : A) (s : S) : (mret a : M S A) s = (Ok a, s).
Proof. reflexivity. Qed.

Context (R : relation S) `{!PreOrder R}.

Lemma respects_ret {A} (a : A) : respects R (mret a : M S A).
Proof. intros s. reflexivity. Qed.

Lemma respects_raise {A} (e : Exn) : respects R (raise e : M S A).
Proof. intros s. reflexivity. Qed.

Lemma respects_lift {A} (r : Result A) : respects R (lift r : M S A).
Proof. intros s. reflexivity. Qed.

Lemma respects_bind {A B} (m : M S A) (k : A -> M S B) :
  respects R m -> (forall a, respects R (k a)) -> respects R (m ≫= k).
Proof.
  intros Hm Hk s. rewrite run_bind. specialize (Hm s).
  destruct (m s) as [[a|e] s']; simpl in *; [|assumption].
  transitivity s'; [assumption | apply Hk].
Qed.

Lemma respects_try_except {A} (m : M S A) (h : Exn -> M S A) :
  respects R m -> (forall e, respects R (h e)) -> respects R (try_except m h).
Proof.
  intros Hm Hh s. unfold try_except. specialize (Hm s).
  destruct (m s) as [[a|e] s']; simpl in *; [assumption|].
  transitivity s'; [assumption | apply Hh].
Qed.

Lemma respects_if {A} (b : bool) (m1 m2 : M S A) :
  respects R m1 -> respects R m2 -> respects R (if b then m1 else m2).
Proof. destruct b; auto. Qed.
End monad.

(** ** Dictionaries *)

Section dict_facts.
Context {V : Type}.
Implicit Types (d : list (string * V)) (k : string) (v : V).

Lemma dict_get_set_eq k v d : dict_get k (dict_set k v d) = Some v.
Proof.
  induction d as [|[k' v'] d IH]; simpl.
  - by rewrite String.eqb_refl.
  - destruct (String.eqb k k') eqn:E; simpl.
    + by rewrite String.eqb_refl.
    + by rewrite E.
Qed.

Lemma dict_get_set_ne k k' v d :
  k <> k' -> dict_get k' (dict_set k v d) = dict_get k' d.
Proof.
  intros Hne. induction d as [|[k0 v0] d IH]; simpl.
  - destruct (String.eqb k' k) eqn:E; [|done].
    apply String.eqb_eq in E. congruence.
  - destruct (String.eqb k k0) eqn:E; simpl.
    + apply String.eqb_eq in E. subst k0.
      destruct (String.eqb k' k) eqn:E'; [|done].
      apply String.eqb_eq in E'. congruence.
    + by rewrite IH.
Qed.

Lemma dict_mem_false k d : dict_mem k d = false <-> dict_get k d = None.
Proof. unfold dict_mem. destruct (dict_get k d); split; congruence. Qed.
End dict_facts.

(** ** The persisted-state model *)

(** With a thread id and no id among the values, the validator enters the
    thread id as the id and leaves the thread id alone. *)
Lemma set_id_from_thread_id_derives (values : Dict) (v : PyVal) :
  dict_mem "id" values = false ->
  dict_get "thread_id" values = Some v ->
  dict_get "id" (CosmosStoreState.set_id_from_thread_id values) = Some v /\
  dict_get "thread_id" (CosmosStoreState.set_id_from_thread_id values) = Some v.
Proof.
  intros Hid Ht. unfold CosmosStoreState.set_id_from_thread_id, dict_mem in *.
  rewrite Ht. destruct (dict_get "id" values); [discriminate|]. simpl.
  split; [apply dict_get_set_eq|].
  by rewrite dict_get_set_ne.
Qed.

(** With an id among the values the validator changes nothing. *)
Lemma set_id_from_thread_id_explicit (values : Dict) :
  dict_mem "id" values = true ->
  CosmosStoreState.set_id_from_thread_id values = values.
Proof.
  intros H. unfold CosmosStoreState.set_id_from_thread_id.
  rewrite H. by rewrite andb_false_r.
Qed.

(** What a successful field validation read from the values. *)
Lemma validate_fields_ok (values : Dict) (st : CosmosStoreState.t) :
  CosmosStoreState.validate_fields values = Ok st ->
  dict_get "thread_id" values = Some (PStr (CosmosStoreState.thread_id st)) /\
  match dict_get "id" values with
  | Some (PStr s) => CosmosStoreState.id st = Some s
  | _ => CosmosStoreState.id st = None
  end.
Proof.
  unfold CosmosStoreState.validate_fields, mbind, Result_bind.
  intros H.
  destruct (dict_get "id" values) as [[]|]; try discriminate;
    destruct (dict_get "thread_id" values) as [[]|]; try discriminate;
    (destruct (dict_get "additional_properties" values) as [[]|]; try discriminate);
    (destruct (dict_get "messages" values) as [[]|]; try discriminate);
    repeat match type of H with
           | context [rmapM ?f ?l] => destruct (rmapM f l); try discriminate
           end;
    injection H as <-; simpl; auto.
Qed.

(** C7. A persisted-state document constructed from values that hold a
    thread identifier and no explicit [id] has its id equal to its thread
    identifier. *)
Theorem C7_id_defaults_to_thread_id (values : Dict) (st : CosmosStoreState.t) :
  dict_mem "id" values = false ->
  dict_mem "thread_id" values = true ->
  CosmosStoreState.construct values = Ok st ->
  CosmosStoreState.id st = Some (CosmosStoreState.thread_id st).
Proof.
  intros Hid Ht Hc. unfold CosmosStoreState.construct in Hc.
  unfold dict_mem in Ht.
  destruct (dict_get "thread_id" values) as [v|] eqn:Hv; [|discriminate].
  destruct (set_id_from_thread_id_derives values v Hid Hv) as [Hi Ht'].
  apply validate_fields_ok in Hc as [Hc1 Hc2].
  rewrite Hi in Hc2. rewrite Ht' in Hc1. injection Hc1 as ->. exact Hc2.
Qed.

Lemma C7_id_defaults_to_thread_id_witness :
  let values : Dict :=
    [("thread_id", PStr "T1");
     ("messages", PList [PMsg {| role := "user"; content := "A"; metadata := [] |}])] in
  exists st,
    CosmosStoreState.construct values = Ok st /\
    CosmosStoreState.id st = Some "T1" /\
    CosmosStoreState.id st = Some (CosmosStoreState.thread_id st).
Proof.
  intros values. eexists. split; [reflexivity|]. split; [reflexivity|].
  apply (C7_id_defaults_to_thread_id values); reflexivity.
Defined.

(** ** How the methods leave the state *)

#[global] Instance serialize_preorder : PreOrder Frame.serialize.
Proof.
  split.
  - intros s. by split.
  - intros s1 s2 s3 [] []. split; try congruence. auto.
Qed.

#[global] Instance no_write_preorder : PreOrder Frame.no_write.
Proof. split; unfold Frame.no_write; [intros s | intros s1 s2 s3]; congruence. Qed.

#[global] Instance configuration_preorder : PreOrder Frame.configuration.
Proof.
  split.
  - intros s. by split.
  - intros s1 s2 s3 [] []. split; congruence.
Qed.

#[global] Instance no_creation_preorder : PreOrder Frame.no_creation.
Proof. split; unfold Frame.no_creation; [intros s | intros s1 s2 s3]; congruence. Qed.

Section primitives.
Import CosmosChatMessageStore.
Context (R : relation State) `{!PreOrder R}.

Lemma respects_self : respects R self.
Proof. intros s. reflexivity. Qed.

Lemma respects_messages : respects R messages.
Proof. intros s. reflexivity. Qed.

(** The handles are built without touching the state. *)
Lemma respects_get_database_client (name : string) : respects R (_get_database_client name).
Proof. intros s. reflexivity. Qed.

Lemma respects_get_container_client : respects R _get_container_client.
Proof. intros s. reflexivity. Qed.

Lemma get_container_client_run (s : State) :
  _get_container_client s = (Ok (database_name s.1, container_name s.1), s).
Proof. reflexivity. Qed.
End primitives.

(** Decompose a method along its binds, handlers and branches. *)
Ltac respects_step :=
  lazymatch goal with
  | |- PreOrder _ => typeclasses eauto
  | |- forall _, _ => intros ?
  | |- respects _ (mret _) => apply respects_ret
  | |- respects _ (raise _) => apply respects_raise
  | |- respects _ (lift _) => apply respects_lift
  | |- respects _ (_ ≫= _) => apply respects_bind
  | |- respects _ (try_except _ _) => apply respects_try_except
  | |- respects _ (if ?b then _ else _) => destruct b
  | |- respects _ (match ?e with _ => _ end) => destruct e
  | |- respects _ CosmosChatMessageStore.self => apply respects_self
  | |- respects _ CosmosChatMessageStore.messages => apply respects_messages
  | |- respects _ CosmosChatMessageStore._get_container_client =>
      apply respects_get_container_client
  | |- respects _ (CosmosChatMessageStore._get_database_client _) =>
      apply respects_get_database_client
  | |- respects _ _ => match goal with H : _ |- _ => solve [apply H] end
  end.

Ltac respects_all := repeat respects_step.

Section serialize_frame.
Import CosmosChatMessageStore.

Lemma await_serialize {A} (m : M Cosmos.Account A) : respects Frame.serialize (await m).
Proof.
  intros [s p]. unfold await, zoom. simpl.
  destruct (m (account p)) as [r acc]. by split.
Qed.

Lemma set_create_serialize :
  respects Frame.serialize (set_create_container_and_database false).
Proof. intros [s p]. by split. Qed.

Lemma does_database_exist_serialize : respects Frame.serialize _does_database_exist.
Proof. unfold _does_database_exist. pose proof @await_serialize. respects_all. Qed.

Lemma does_container_exist_serialize : respects Frame.serialize _does_container_exist.
Proof. unfold _does_container_exist. pose proof @await_serialize. respects_all. Qed.

Lemma create_if_not_exists_serialize :
  respects Frame.serialize _create_database_and_container_if_not_exists.
Proof.
  unfold _create_database_and_container_if_not_exists.
  pose proof @await_serialize.
  pose proof does_database_exist_serialize.
  pose proof does_container_exist_serialize.
  respects_all.
Qed.

Lemma serialize_state_serialize (kwargs : Dict) :
  respects Frame.serialize (serialize_state kwargs).
Proof.
  unfold serialize_state.
  pose proof @await_serialize.
  pose proof create_if_not_exists_serialize.
  pose proof set_create_serialize.
  respects_all.
Qed.
End serialize_frame.

(** C10. [serialize_state] leaves the message buffer, the thread identifier
    and every other attribute of the store but the pending-creation flag as
    they were, whether it returns or raises; the flag is at most cleared. *)
Theorem C10_serialize_state_frame (kwargs : Dict)
    (s : CosmosChatMessageStore.t) (p : CosmosChatMessageStore.Process) :
  let out := CosmosChatMessageStore.serialize_state kwargs (s, p) in
  CosmosChatMessageStore._messages out.2.2 = CosmosChatMessageStore._messages p /\
  CosmosChatMessageStore.thread_id out.2.1 = CosmosChatMessageStore.thread_id s /\
  CosmosChatMessageStore.database_name out.2.1 = CosmosChatMessageStore.database_name s /\
  CosmosChatMessageStore.container_name out.2.1 = CosmosChatMessageStore.container_name s /\
  CosmosChatMessageStore.partition_key out.2.1 = CosmosChatMessageStore.partition_key s /\
  CosmosChatMessageStore._save_one_every_message out.2.1 =
    CosmosChatMessageStore._save_one_every_message s /\
  (CosmosChatMessageStore._create_container_and_database out.2.1 =
     CosmosChatMessageStore._create_container_and_database s \/
   CosmosChatMessageStore._create_container_and_database out.2.1 = false).
Proof.
  intros out. subst out. destruct (serialize_state_serialize kwargs (s, p)).
  simpl in *. repeat split; try assumption.
  destruct (CosmosChatMessageStore._create_container_and_database
              (CosmosChatMessageStore.serialize_state kwargs (s, p)).2.1) eqn:E; auto.
  left. symmetry. auto.
Qed.

(** ** Appending *)

Section appending.
Import CosmosChatMessageStore.

Lemma extend_messages_run (more : list ChatMessage) (s : t) (p : Process) :
  extend_messages more (s, p) =
  (Ok tt, (s, {| environ := environ p;
                 _messages := _messages p ++ more;
                 account := account p |})).
Proof. reflexivity. Qed.

(** Without the eager-write policy the call extends the buffer and returns. *)
Lemma add_messages_lazy (msgs : list ChatMessage) (s : t) (p : Process) :
  _save_one_every_message s = false ->
  add_messages msgs (s, p) =
  (Ok tt, (s, {| environ := environ p;
                 _messages := _messages p ++ msgs;
                 account := account p |})).
Proof.
  intros H. unfold add_messages. rewrite run_bind, extend_messages_run.
  rewrite run_bind. simpl. by rewrite H.
Qed.

(** With it, the call is the extension followed by [serialize_state()]. *)
Lemma add_messages_eager (msgs : list ChatMessage) (s : t) (p : Process) :
  _save_one_every_message s = true ->
  add_messages msgs (s, p) =
  (serialize_state [] ≫= fun _ => mret tt)
    (s, {| environ := environ p;
           _messages := _messages p ++ msgs;
           account := account p |}).
Proof.
  intros H. unfold add_messages. rewrite run_bind, extend_messages_run.
  rewrite run_bind. simpl. by rewrite H.
Qed.

Lemma add_messages_buffer (msgs : list ChatMessage) (s : t) (p : Process) :
  _messages (add_messages msgs (s, p)).2.2 = _messages p ++ msgs.
Proof.
  destruct (_save_one_every_message s) eqn:E.
  - rewrite add_messages_eager by done. rewrite run_bind.
    pose proof (serialize_state_serialize []
      (s, {| environ := environ p; _messages := _messages p ++ msgs;
             account := account p |})) as [Hb _ _ _ _ _ _ _].
    destruct (serialize_state [] _) as [[tok|e] s']; simpl in *; exact Hb.
  - by rewrite add_messages_lazy.
Qed.
End appending.

(** C8. After [add_messages(C)] the buffer is the buffer before followed by
    the elements of [C] in their order, whichever way the call ends; with an
    empty [C] the buffer is as before, and the call is the optional eager
    persist and nothing else: with the policy off it returns at once and
    changes nothing at all. *)
Theorem C8_add_messages_appends (C : list ChatMessage)
    (s : CosmosChatMessageStore.t) (p : CosmosChatMessageStore.Process) :
  CosmosChatMessageStore._messages (CosmosChatMessageStore.add_messages C (s, p)).2.2 =
    CosmosChatMessageStore._messages p ++ C /\
  CosmosChatMessageStore._messages (CosmosChatMessageStore.add_messages [] (s, p)).2.2 =
    CosmosChatMessageStore._messages p /\
  CosmosChatMessageStore.add_messages [] (s, p) =
    if CosmosChatMessageStore._save_one_every_message s
    then (CosmosChatMessageStore.serialize_state [] ≫= fun _ => mret tt) (s, p)
    else (Ok tt, (s, p)).
Proof.
  split; [apply add_messages_buffer|].
  split; [by rewrite add_messages_buffer, app_nil_r|].
  destruct p as [env buf acc].
  destruct (CosmosChatMessageStore._save_one_every_message s) eqn:E.
  - rewrite add_messages_eager by done. simpl. by rewrite app_nil_r.
  - rewrite add_messages_lazy by done. simpl. by rewrite app_nil_r.
Qed.

(** ** Reads and writes *)

Section reads.
Import CosmosChatMessageStore.

(** A request whose service changes no database leaves the databases. *)
Lemma request_read_only {A} (serve : Cosmos.Databases -> Result A * Cosmos.Databases)
    (acc : Cosmos.Account) :
  (forall dbs, (serve dbs).2 = dbs) ->
  Cosmos.databases (Cosmos.request serve acc).2 = Cosmos.databases acc.
Proof.
  intros Hserve. unfold Cosmos.request.
  destruct (Cosmos.faults acc) as [|[e|] rest]; simpl; try done;
    specialize (Hserve (Cosmos.databases acc));
    destruct (serve (Cosmos.databases acc)) as [r dbs]; simpl in *; congruence.
Qed.

(** Every request consumes the entry the network holds for it. *)
Lemma request_faults {A} (serve : Cosmos.Databases -> Result A * Cosmos.Databases)
    (acc : Cosmos.Account) :
  Cosmos.faults (Cosmos.request serve acc).2 = tail (Cosmos.faults acc).
Proof.
  unfold Cosmos.request.
  destruct (Cosmos.faults acc) as [|[e|] rest]; simpl; try done;
    destruct (serve (Cosmos.databases acc)); done.
Qed.

Lemma read_item_read_only (c : Cosmos.ContainerProxy) (item partition : string)
    (acc : Cosmos.Account) :
  Cosmos.databases (Cosmos.read_item c item partition acc).2 = Cosmos.databases acc.
Proof.
  apply request_read_only. intros dbs.
  destruct (Cosmos.find_container dbs c) as [cont|]; [|done].
  by destruct (Cosmos.items cont !! (item, Some partition)).
Qed.

Lemma await_no_write {A} (m : M Cosmos.Account A) :
  (forall acc, Cosmos.databases (m acc).2 = Cosmos.databases acc) ->
  respects Frame.no_write (await m).
Proof.
  intros Hm [s p]. unfold Frame.no_write, await, zoom. simpl.
  specialize (Hm (account p)). by destruct (m (account p)).
Qed.

Lemma await_configuration {A} (m : M Cosmos.Account A) :
  respects Frame.configuration (await m).
Proof.
  intros [s p]. unfold await, zoom. simpl. destruct (m (account p)). by split.
Qed.

Lemma extend_messages_no_write (more : list ChatMessage) :
  respects Frame.no_write (extend_messages more).
Proof. by intros [s p]. Qed.

Lemma extend_messages_configuration (more : list ChatMessage) :
  respects Frame.configuration (extend_messages more).
Proof. intros [s p]. by split. Qed.

Lemma set_thread_id_no_write (v : string) : respects Frame.no_write (set_thread_id v).
Proof. by intros [s p]. Qed.

Lemma set_thread_id_configuration (v : string) :
  respects Frame.configuration (set_thread_id v).
Proof. intros [s p]. by split. Qed.

(** A restore reads: it writes nothing to the account. *)
Lemma deserialize_state_no_write (ref : CosmosStoreState.Input) :
  respects Frame.no_write (deserialize_state ref).
Proof.
  unfold deserialize_state.
  pose proof extend_messages_no_write. pose proof set_thread_id_no_write.
  assert (forall c i k, respects Frame.no_write (await (Cosmos.read_item c i k)))
    by (intros; apply await_no_write, read_item_read_only).
  respects_all.
Qed.

Lemma deserialize_state_configuration (ref : CosmosStoreState.Input) :
  respects Frame.configuration (deserialize_state ref).
Proof.
  unfold deserialize_state.
  pose proof extend_messages_configuration. pose proof set_thread_id_configuration.
  pose proof @await_configuration.
  respects_all.
Qed.

(** A session without [serialize_state] on a store without the eager-write
    policy writes nothing, and the policy stays off. *)
Lemma session_lazy (cs : list Call) (s : State) :
  _save_one_every_message s.1 = false ->
  forallb (fun c => negb (is_serialize c)) cs = true ->
  _save_one_every_message (session cs s).1 = false /\
  Cosmos.databases (account (session cs s).2) = Cosmos.databases (account s.2).
Proof.
  revert s. induction cs as [|c cs IH]; intros s Hs Hcs; [done|].
  simpl in Hcs. apply andb_prop in Hcs as [Hc Hcs].
  assert (_save_one_every_message (call c s).1 = false /\
          Cosmos.databases (account (call c s).2) = Cosmos.databases (account s.2))
    as [Hs' Hw].
  { destruct c as [msgs| |ref|kwargs]; simpl in *; try discriminate.
    - destruct s as [s0 p]. rewrite add_messages_lazy by done. done.
    - done.
    - destruct (deserialize_state_configuration ref s) as [_ _ _ He _].
      split; [congruence | apply deserialize_state_no_write]. }
  destruct (IH (call c s) Hs' Hcs) as [IH1 IH2].
  simpl. split; [exact IH1 | congruence].
Qed.
End reads.

(** C4. With the eager-write flag enabled, a call to [add_messages] is the
    append followed by a full [serialize_state()] whose outcome it passes on;
    with the flag disabled the call issues no request to the account, and
    over any session of calls none of which is [serialize_state] the
    databases of the account stay as they were. *)
Theorem C4_eager_write_policy (msgs : list ChatMessage)
    (s : CosmosChatMessageStore.t) (p : CosmosChatMessageStore.Process) :
  let appended :=
    {| CosmosChatMessageStore.environ := CosmosChatMessageStore.environ p;
       CosmosChatMessageStore._messages := CosmosChatMessageStore._messages p ++ msgs;
       CosmosChatMessageStore.account := CosmosChatMessageStore.account p |} in
  (CosmosChatMessageStore._save_one_every_message s = true ->
   CosmosChatMessageStore.add_messages msgs (s, p) =
   (CosmosChatMessageStore.serialize_state [] ≫= fun _ => mret tt) (s, appended)) /\
  (CosmosChatMessageStore._save_one_every_message s = false ->
   CosmosChatMessageStore.add_messages msgs (s, p) = (Ok tt, (s, appended)) /\
   forall cs : list Call,
     forallb (fun c => negb (is_serialize c)) cs = true ->
     Cosmos.databases (CosmosChatMessageStore.account (session cs (s, p)).2) =
     Cosmos.databases (CosmosChatMessageStore.account p)).
Proof.
  intros appended. split; intros H.
  - by apply add_messages_eager.
  - split; [by apply add_messages_lazy|].
    intros cs Hcs. by apply (session_lazy cs (s, p)).
Qed.

(** ** Creation of the database and the container *)

Section creation.
Import CosmosChatMessageStore.

Lemma serialize_state_eq (kwargs : Dict) :
  serialize_state kwargs =
  (s ← self;
   (if _create_container_and_database s
    then _create_database_and_container_if_not_exists;;
         set_create_container_and_database false
    else mret tt);;
   persist kwargs).
Proof. reflexivity. Qed.

(** Once the flag is cleared the method is its second half. *)
Lemma serialize_state_settled (kwargs : Dict) (s : t) (p : Process) :
  _create_container_and_database s = false ->
  serialize_state kwargs (s, p) = persist kwargs (s, p).
Proof.
  intros H. rewrite serialize_state_eq, run_bind. simpl.
  rewrite run_bind, H. reflexivity.
Qed.

(** With the flag set the method starts with the creation sequence: an
    error of the sequence ends the call with the flag still set, a return
    clears the flag before the second half runs. *)
Lemma serialize_state_pending (kwargs : Dict) (s : t) (p : Process) :
  _create_container_and_database s = true ->
  serialize_state kwargs (s, p) =
  match _create_database_and_container_if_not_exists (s, p) with
  | (Ok _, s') => (set_create_container_and_database false;; persist kwargs) s'
  | (Raise e, s') => (Raise e, s')
  end.
Proof.
  intros H. rewrite serialize_state_eq, run_bind. simpl.
  rewrite run_bind, H, run_bind.
  by destruct (_create_database_and_container_if_not_exists (s, p)) as [[[]|e] s'].
Qed.

Lemma resources_replace (dbs : Cosmos.Databases) (d n : string)
    (db : gmap string Cosmos.Container) (cont cont' : Cosmos.Container) :
  dbs !! d = Some db -> db !! n = Some cont ->
  resources (<[d := <[n := cont']> db]> dbs) = resources dbs.
Proof.
  intros Hd Hn. unfold resources. rewrite fmap_insert, dom_insert_L.
  assert (n ∈ dom db) as Hin by (apply elem_of_dom; eauto).
  rewrite (subseteq_union_1_L {[n]} (dom db)) by (by apply singleton_subseteq_l).
  apply insert_id. by rewrite lookup_fmap, Hd.
Qed.

Lemma request_no_creation {A} (serve : Cosmos.Databases -> Result A * Cosmos.Databases)
    (acc : Cosmos.Account) :
  (forall dbs, resources (serve dbs).2 = resources dbs) ->
  resources (Cosmos.databases (Cosmos.request serve acc).2) =
  resources (Cosmos.databases acc).
Proof.
  intros Hserve. unfold Cosmos.request.
  destruct (Cosmos.faults acc) as [|[e|] rest]; simpl; try done;
    specialize (Hserve (Cosmos.databases acc));
    destruct (serve (Cosmos.databases acc)) as [r dbs]; simpl in *; congruence.
Qed.

(** An upsert replaces or adds a document of an existing container. *)
Lemma upsert_item_no_creation (c : Cosmos.ContainerProxy) (body : Dict)
    (acc : Cosmos.Account) :
  resources (Cosmos.databases (Cosmos.upsert_item c body acc).2) =
  resources (Cosmos.databases acc).
Proof.
  apply request_no_creation. intros dbs.
  destruct (dbs !! c.1) as [db|] eqn:Hd; [|done].
  destruct (db !! c.2) as [cont|] eqn:Hn; [|done].
  destruct (dict_get "id" body) as [[| | |i| | |]|]; simpl; try reflexivity.
  by eapply resources_replace.
Qed.

Lemma await_no_creation {A} (m : M Cosmos.Account A) :
  (forall acc, resources (Cosmos.databases (m acc).2) = resources (Cosmos.databases acc)) ->
  respects Frame.no_creation (await m).
Proof.
  intros Hm [s p]. unfold Frame.no_creation, await, zoom. simpl.
  specialize (Hm (account p)). by destruct (m (account p)).
Qed.

Lemma persist_no_creation (kwargs : Dict) : respects Frame.no_creation (persist kwargs).
Proof.
  unfold persist.
  assert (forall c b, respects Frame.no_creation (await (Cosmos.upsert_item c b)))
    by (intros; apply await_no_creation, upsert_item_no_creation).
  respects_all.
Qed.

Lemma persist_configuration (kwargs : Dict) : respects Frame.configuration (persist kwargs).
Proof. unfold persist. pose proof @await_configuration. respects_all. Qed.

Lemma no_write_no_creation (s s' : State) : Frame.no_write s s' -> Frame.no_creation s s'.
Proof. unfold Frame.no_write, Frame.no_creation. by intros ->. Qed.

(** After the flag is cleared no call on the store creates anything, and
    the flag stays cleared. *)
Lemma call_settled (c : Call) (s : State) :
  _create_container_and_database s.1 = false ->
  _create_container_and_database (call c s).1 = false /\ Frame.no_creation s (call c s).
Proof.
  intros Hs. destruct s as [s0 p]. simpl in Hs.
  assert (forall kwargs p',
    _create_container_and_database (serialize_state kwargs (s0, p')).2.1 = false /\
    Frame.no_creation (s0, p') (serialize_state kwargs (s0, p')).2) as Hser.
  { intros kwargs p'. rewrite serialize_state_settled by done.
    destruct (persist_configuration kwargs (s0, p')) as [_ _ _ _ Hp].
    split; [simpl in Hp; congruence | apply persist_no_creation]. }
  destruct c as [msgs| |ref|kwargs]; simpl.
  - destruct (_save_one_every_message s0) eqn:E.
    + rewrite add_messages_eager by done. rewrite run_bind.
      match goal with
      | |- context [serialize_state [] (s0, ?q)] =>
          destruct (Hser [] q) as [Hf Hc];
          destruct (serialize_state [] (s0, q)) as [[tok|e] s']
      end; done.
    + rewrite add_messages_lazy by done. done.
  - done.
  - destruct (deserialize_state_configuration ref (s0, p)) as [_ _ _ _ Hp].
    split; [simpl in Hp; congruence|].
    apply no_write_no_creation, deserialize_state_no_write.
  - apply Hser.
Qed.

Lemma session_settled (cs : list Call) (s : State) :
  _create_container_and_database s.1 = false ->
  _create_container_and_database (session cs s).1 = false /\
  Frame.no_creation s (session cs s).
Proof.
  revert s. induction cs as [|c cs IH]; intros s Hs; [done|].
  destruct (call_settled c s Hs) as [Hf Hc].
  destruct (IH (call c s) Hf) as [IH1 IH2].
  simpl. split; [exact IH1 | by transitivity (call c s)].
Qed.
End creation.

Section pending_flag.
Import CosmosChatMessageStore.

Lemma create_if_not_exists_configuration :
  respects Frame.configuration _create_database_and_container_if_not_exists.
Proof.
  unfold _create_database_and_container_if_not_exists,
    _does_database_exist, _does_container_exist.
  pose proof @await_configuration. respects_all.
Qed.

Lemma serialize_state_clears (kwargs : Dict) (s : t) (p : Process) :
  _create_container_and_database s = true ->
  match _create_database_and_container_if_not_exists (s, p) with
  | (Ok _, _) =>
      _create_container_and_database (serialize_state kwargs (s, p)).2.1 = false
  | (Raise e, s') =>
      serialize_state kwargs (s, p) = (Raise e, s') /\
      _create_container_and_database s'.1 = true
  end.
Proof.
  intros H. rewrite serialize_state_pending by done.
  destruct (create_if_not_exists_configuration (s, p)) as [_ _ _ _ Hc].
  destruct (_create_database_and_container_if_not_exists (s, p)) as [[[]|e] [s' p']];
    simpl in *.
  - rewrite run_bind. simpl.
    match goal with
    | |- context [persist kwargs ?q] =>
        destruct (persist_configuration kwargs q) as [_ _ _ _ Hp]
    end.
    simpl in Hp. exact Hp.
  - split; congruence.
Qed.
End pending_flag.

(** C5 (as amended). With auto-create enabled, [serialize_state] starts with
    the creation sequence; when the sequence returns, the flag is cleared
    before anything else happens, and when it raises the call ends with that
    error and the flag still set. A cleared flag is never set again, and
    from then on no call on the store, [serialize_state] included, creates a
    database or a container. *)
Theorem C5_auto_create_until_done (kwargs : Dict)
    (s : CosmosChatMessageStore.t) (p : CosmosChatMessageStore.Process) :
  let out := CosmosChatMessageStore.serialize_state kwargs (s, p) in
  (CosmosChatMessageStore._create_container_and_database s = true ->
   match CosmosChatMessageStore._create_database_and_container_if_not_exists (s, p) with
   | (Ok _, _) => CosmosChatMessageStore._create_container_and_database out.2.1 = false
   | (Raise e, s') =>
       out = (Raise e, s') /\
       CosmosChatMessageStore._create_container_and_database s'.1 = true
   end) /\
  (CosmosChatMessageStore._create_container_and_database s = false ->
   CosmosChatMessageStore._create_container_and_database out.2.1 = false) /\
  (CosmosChatMessageStore._create_container_and_database out.2.1 = false ->
   forall cs : list Call,
     CosmosChatMessageStore._create_container_and_database (session cs out.2).1 = false /\
     resources (Cosmos.databases (CosmosChatMessageStore.account (session cs out.2).2)) =
     resources (Cosmos.databases (CosmosChatMessageStore.account out.2.2))).
Proof.
  intros out. subst out. split; [|split].
  - apply serialize_state_clears.
  - intros H. by apply (call_settled (SerializeState kwargs) (s, p)).
  - intros H cs. by apply session_settled.
Qed.

Lemma C5_auto_create_until_done_witness :
  let s := Scenario.store "T1" false true in
  let p := Scenario.process [Scenario.A] Scenario.empty_account in
  let out := CosmosChatMessageStore.serialize_state [] (s, p) in
  out.1 = Ok "T1" /\
  container_exists
    (Cosmos.databases (CosmosChatMessageStore.account out.2.2))
    Scenario.default_container = true /\
  CosmosChatMessageStore._create_container_and_database out.2.1 = false /\
  resources (Cosmos.databases (CosmosChatMessageStore.account
     (session [SerializeState []; AddMessages [Scenario.B]; SerializeState []] out.2).2)) =
  resources (Cosmos.databases (CosmosChatMessageStore.account out.2.2)).
Proof.
  intros s p out.
  split; [reflexivity|]. split; [reflexivity|].
  destruct (C5_auto_create_until_done [] s p) as (Hrun & _ & Hdone).
  split; [exact (Hrun eq_refl)|]. apply (Hdone (Hrun eq_refl)).
Defined.

(** C5 as the specification states it fails when the first sequence raises: the
    network fails the request that creates the container, the call raises
    with the flag still set, and the second [serialize_state()] runs the
    sequence again and creates the container. *)
Lemma C5_second_call_creates :
  let s := Scenario.store "T1" false true in
  let p := Scenario.process [Scenario.A] Scenario.flaky_account in
  let first := CosmosChatMessageStore.serialize_state [] (s, p) in
  let second := CosmosChatMessageStore.serialize_state [] first.2 in
  first.1 = Raise (ServiceResponseException
                     (FailedCreate CosmosChatMessageStore.default_database_name
                        CosmosChatMessageStore.default_container_name)
                     (CosmosHttpResponseError 503)) /\
  CosmosChatMessageStore._create_container_and_database first.2.1 = true /\
  container_exists
    (Cosmos.databases (CosmosChatMessageStore.account first.2.2))
    Scenario.default_container = false /\
  second.1 = Ok "T1" /\
  container_exists
    (Cosmos.databases (CosmosChatMessageStore.account second.2.2))
    Scenario.default_container = true.
Proof. vm_compute. repeat split. Qed.

(** ** Construction *)

Section construction.
Import CosmosChatMessageStore.

(** Construction leaves the process as it is: no request, no change. *)
Lemma init_process (d c : PyVal) (pk : string) (tid : option string)
    (eager create : bool) (uuid : string) (p : Process) :
  (__init__ d c pk tid eager create uuid p).2 = p.
Proof.
  unfold __init__.
  by destruct (CosmosDBNoSqlSettings.construct (environ p) d c) as [settings|[]].
Qed.

Lemma settings_raise (env : gmap string string) (d c : PyVal) (e : Exn) :
  CosmosDBNoSqlSettings.construct env d c = Raise e -> e = ValidationError.
Proof.
  unfold CosmosDBNoSqlSettings.construct, CosmosDBNoSqlSettings.field, mbind, Result_bind.
  destruct d; simpl; try congruence;
    repeat match goal with
           | |- context [env !! ?k] => destruct (env !! k); simpl
           end;
    try congruence;
    destruct c; simpl; try congruence;
    repeat match goal with
           | |- context [env !! ?k] => destruct (env !! k); simpl
           end;
    congruence.
Qed.

(** The buffer a store shows right after its construction is the list of
    the class, with whatever earlier instances appended to it. *)
Lemma list_messages_after_init (d c : PyVal) (pk : string) (tid : option string)
    (eager create : bool) (uuid : string) (p : Process) (st : t) :
  (__init__ d c pk tid eager create uuid p).1 = Ok st ->
  (list_messages (st, (__init__ d c pk tid eager create uuid p).2)).1 = Ok (_messages p).
Proof. intros _. by rewrite init_process. Qed.
End construction.

(** C3, on the failing input. A first store is constructed and given one
    message; a second store constructed afterwards in the same process lists
    that message: its buffer is the list of the class, not a list of its
    own. *)
Theorem C3_second_store_lists_first_stores_messages :
  let p0 := Scenario.process [] Scenario.ready_account in
  let new tid u :=
    CosmosChatMessageStore.__init__
      (PStr CosmosChatMessageStore.default_database_name)
      (PStr CosmosChatMessageStore.default_container_name)
      CosmosChatMessageStore.default_partition_key (Some tid) false false u in
  exists first second p1,
    new "T1" "uuid-1" p0 = (Ok first, p0) /\
    CosmosChatMessageStore.add_messages [Scenario.A] (first, p0) = (Ok tt, (first, p1)) /\
    new "T2" "uuid-2" p1 = (Ok second, p1) /\
    CosmosChatMessageStore.list_messages (second, p1) = (Ok [Scenario.A], (second, p1)).
Proof. intros p0 new. do 3 eexists. repeat split; reflexivity. Qed.

(** C6 (as amended). Construction issues no request and changes nothing in
    the process, whether it fails or not. It fails exactly when the settings
    fail validation, and then with the configuration error that wraps the
    validation error. A name that is a string passes validation as it is,
    the empty string included, and becomes the name of the store. *)
Theorem C6_construction_validates_settings (database_name container_name : PyVal)
    (partition_key : string) (thread_id : option string)
    (save_one_every_message create_container_and_database : bool) (uuid : string)
    (p : CosmosChatMessageStore.Process) :
  let out :=
    CosmosChatMessageStore.__init__ database_name container_name partition_key
      thread_id save_one_every_message create_container_and_database uuid p in
  out.2 = p /\
  match CosmosDBNoSqlSettings.construct
          (CosmosChatMessageStore.environ p) database_name container_name with
  | Ok settings =>
      exists st, out.1 = Ok st /\
        CosmosChatMessageStore.database_name st =
          CosmosDBNoSqlSettings.database_name settings /\
        CosmosChatMessageStore.container_name st =
          CosmosDBNoSqlSettings.container_name settings
  | Raise _ =>
      out.1 = Raise (ServiceInvalidExecutionSettingsError ValidationError) /\
      is_ConfigurationError (ServiceInvalidExecutionSettingsError ValidationError) = true
  end /\
  match database_name, container_name with
  | PStr d, PStr c =>
      CosmosDBNoSqlSettings.construct
        (CosmosChatMessageStore.environ p) database_name container_name =
      Ok {| CosmosDBNoSqlSettings.database_name := d;
            CosmosDBNoSqlSettings.container_name := c |}
  | _, _ => True
  end.
Proof.
  intros out. subst out. split; [apply init_process|]. split.
  - unfold CosmosChatMessageStore.__init__.
    destruct (CosmosDBNoSqlSettings.construct _ _ _) as [settings|e] eqn:E.
    + eexists. repeat split.
    + apply settings_raise in E. subst e. by split.
  - destruct database_name; try exact I. destruct container_name; try exact I.
    reflexivity.
Qed.

(** C6 as the specification states it fails on empty names: they are strings, the
    settings accept them, and the store is constructed. *)
Lemma C6_empty_names_are_accepted :
  (CosmosChatMessageStore.__init__ (PStr "") (PStr "")
     CosmosChatMessageStore.default_partition_key (Some "T1") false false "uuid-1"
     (Scenario.process [] Scenario.ready_account)).1 =
  Ok {| CosmosChatMessageStore.database_name := "";
        CosmosChatMessageStore.container_name := "";
        CosmosChatMessageStore.thread_id := "T1";
        CosmosChatMessageStore.partition_key := "/thread_id";
        CosmosChatMessageStore._create_container_and_database := false;
        CosmosChatMessageStore._save_one_every_message := false |}.
Proof. reflexivity. Qed.

(** ** Documents: dump and validation *)

Lemma metadata_round_trip (md : list (string * string)) :
  rmapM ChatMessageModel.metadata_entry (map (fun kv => (kv.1, PStr kv.2)) md) = Ok md.
Proof.
  induction md as [|[k v] md IH]; [done|].
  simpl. unfold mbind, Result_bind in *. simpl. by rewrite IH.
Qed.

(** A message is read back from its dump. *)
Lemma message_round_trip (m : ChatMessage) :
  ChatMessageModel.model_validate (ChatMessageModel.model_dump m) = Ok m.
Proof.
  destruct m as [r c md]. unfold ChatMessageModel.model_dump. simpl.
  unfold mbind, Result_bind. simpl. by rewrite metadata_round_trip.
Qed.

Lemma messages_round_trip (msgs : list ChatMessage) :
  rmapM ChatMessageModel.model_validate (map ChatMessageModel.model_dump msgs) = Ok msgs.
Proof.
  induction msgs as [|m msgs IH]; [done|].
  cbn [map rmapM]. rewrite message_round_trip. unfold mbind, Result_bind in *.
  by rewrite IH.
Qed.

Lemma instances_validate (msgs : list ChatMessage) :
  rmapM ChatMessageModel.model_validate (map PMsg msgs) = Ok msgs.
Proof.
  induction msgs as [|m msgs IH]; [done|].
  simpl. unfold mbind, Result_bind in *. by rewrite IH.
Qed.

(** The state [serialize_state()] constructs. *)
Lemma state_constructed (thread_id : string) (msgs : list ChatMessage) :
  CosmosChatMessageStore.state_arguments thread_id msgs [] =
    Ok [("id", PStr thread_id); ("thread_id", PStr thread_id);
        ("messages", PList (map PMsg msgs))] /\
  CosmosStoreState.construct
    [("id", PStr thread_id); ("thread_id", PStr thread_id);
     ("messages", PList (map PMsg msgs))] =
  Ok {| CosmosStoreState.id := Some thread_id;
        CosmosStoreState.thread_id := thread_id;
        CosmosStoreState.additional_properties := [];
        CosmosStoreState.messages := msgs |}.
Proof.
  split; [reflexivity|].
  unfold CosmosStoreState.construct.
  rewrite set_id_from_thread_id_explicit by reflexivity.
  unfold CosmosStoreState.validate_fields. simpl.
  rewrite instances_validate. reflexivity.
Qed.



(** ** Requests *)

Lemma request_run {A} (serve : Cosmos.Databases -> Result A * Cosmos.Databases)
    (acc : Cosmos.Account) :
  Cosmos.request serve acc =
  match next_fault acc with
  | Some e => (Raise e, served acc)
  | None =>
      ((serve (Cosmos.databases acc)).1,
       {| Cosmos.databases := (serve (Cosmos.databases acc)).2;
          Cosmos.faults := tail (Cosmos.faults acc) |})
  end.
Proof.
  unfold Cosmos.request, next_fault, served.
  destruct (Cosmos.faults acc) as [|[e|] rest]; simpl; try reflexivity;
    by destruct (serve (Cosmos.databases acc)).
Qed.

(** A read that is served returns the document under the id and partition
    key value, and fails with not-found when the container or the document is
    not there; a read the network fails raises the fault. *)
Lemma read_item_run (c : Cosmos.ContainerProxy) (item partition : string)
    (acc : Cosmos.Account) :
  Cosmos.read_item c item partition acc =
  (match next_fault acc with
   | Some e => Raise e
   | None =>
       match Cosmos.find_container (Cosmos.databases acc) c with
       | Some cont =>
           match Cosmos.items cont !! (item, Some partition) with
           | Some doc => Ok doc
           | None => Raise CosmosResourceNotFoundError
           end
       | None => Raise CosmosResourceNotFoundError
       end
   end, served acc).
Proof.
  unfold Cosmos.read_item. rewrite request_run. unfold served.
  destruct (next_fault acc); [done|].
  destruct (Cosmos.find_container _ c) as [cont|]; [|done].
  by destruct (Cosmos.items cont !! _).
Qed.

(** An upsert that returns has stored the body in the container it names,
    under the id of the body and its partition key value there. *)
Lemma upsert_item_ok (c : Cosmos.ContainerProxy) (body : Dict)
    (acc acc' : Cosmos.Account) :
  Cosmos.upsert_item c body acc = (Ok tt, acc') ->
  exists cont i,
    Cosmos.find_container (Cosmos.databases acc) c = Some cont /\
    dict_get "id" body = Some (PStr i) /\
    acc' = upserted c (i, Cosmos.partition_value (Cosmos.partition_key cont) body) body acc.
Proof.
  unfold Cosmos.upsert_item. rewrite request_run.
  destruct (next_fault acc); [discriminate|].
  unfold Cosmos.find_container, upserted. cbv beta.
  destruct (Cosmos.databases acc !! c.1) as [db|] eqn:Hd; simpl; [|discriminate].
  destruct (db !! c.2) as [cont|] eqn:Hn; simpl; [|discriminate].
  destruct (dict_get "id" body) as [[| | |i| | |]|]; simpl; try discriminate.
  intros [= <-]. by exists cont, i.
Qed.

Lemma find_container_upserted (c : Cosmos.ContainerProxy) (key : string * option string)
    (doc : Dict) (acc : Cosmos.Account) (cont : Cosmos.Container) :
  Cosmos.find_container (Cosmos.databases acc) c = Some cont ->
  Cosmos.find_container (Cosmos.databases (upserted c key doc acc)) c =
  Some {| Cosmos.partition_key := Cosmos.partition_key cont;
          Cosmos.items := <[key := doc]> (Cosmos.items cont) |}.
Proof.
  unfold Cosmos.find_container, upserted. simpl.
  destruct (Cosmos.databases acc !! c.1) as [db|] eqn:Hd; simpl; [|discriminate].
  intros Hn. rewrite Hn. rewrite lookup_insert_eq. simpl. by rewrite lookup_insert_eq.
Qed.

(** ** Save and restore *)

Section save_restore.
Import CosmosChatMessageStore.

(** The second half of [serialize_state()], when it returns: the token is
    the thread identifier, the store is as before, and the account holds the
    document of the thread and the buffer. *)
Lemma persist_ok (s s1 : t) (p p1 : Process) (tok : string) :
  persist [] (s, p) = (Ok tok, (s1, p1)) ->
  tok = thread_id s /\ s1 = s /\
  exists cont,
    Cosmos.find_container (Cosmos.databases (account p))
      (database_name s, container_name s) = Some cont /\
    p1 = with_account
           (upserted (database_name s, container_name s)
              (thread_id s,
               Cosmos.partition_value (Cosmos.partition_key cont)
                 (document (thread_id s) (_messages p)))
              (document (thread_id s) (_messages p)) (account p)) p.
Proof.
  unfold persist. rewrite run_bind. simpl. rewrite run_bind. simpl.
  rewrite run_bind. unfold lift at 1.
  rewrite (proj2 (state_constructed (thread_id s) (_messages p))).
  rewrite run_bind, get_container_client_run. simpl.
  rewrite run_bind. unfold await, zoom. simpl.
  fold (document (thread_id s) (_messages p)).
  destruct (Cosmos.upsert_item _ _ (account p)) as [[[]|e] acc'] eqn:Hu; simpl;
    [|discriminate].
  intros [= <- <- <-].
  apply upsert_item_ok in Hu as (cont & i & Hc & Hi & ->).
  injection Hi as <-. split; [done|]. split; [done|]. by exists cont.
Qed.
End save_restore.

Section restore.
Import CosmosChatMessageStore.

(** A [serialize_state] that returns has run its second half on a state
    with the same thread, names and buffer. *)
Lemma serialize_state_ok (kwargs : Dict) (s s1 : t) (p p1 : Process) (tok : string) :
  serialize_state kwargs (s, p) = (Ok tok, (s1, p1)) ->
  exists s0 p0,
    persist kwargs (s0, p0) = (Ok tok, (s1, p1)) /\
    thread_id s0 = thread_id s /\
    database_name s0 = database_name s /\
    container_name s0 = container_name s /\
    _messages p0 = _messages p.
Proof.
  destruct (_create_container_and_database s) eqn:E.
  - rewrite serialize_state_pending by done.
    destruct (create_if_not_exists_serialize (s, p)) as [Hb Ht Hd Hc _ _ _ _].
    destruct (_create_database_and_container_if_not_exists (s, p))
      as [[[]|e] [s' p']]; [|discriminate].
    rewrite run_bind. simpl in *. intros H.
    eexists _, p'. split; [exact H|]. done.
  - rewrite serialize_state_settled by done. intros H. by exists s, p.
Qed.

(** [deserialize_state], step by step. *)
Lemma deserialize_state_run (ref : CosmosStoreState.Input) (s : t) (p : Process) :
  deserialize_state ref (s, p) =
  match CosmosStoreState.model_validate ref with
  | Raise e => (Raise e, (s, p))
  | Ok r =>
      match (Cosmos.read_item (database_name s, container_name s)
               (CosmosStoreState.thread_id r) (CosmosStoreState.thread_id r)
               (account p)).1 with
      | Raise e =>
          (Raise (ServiceResponseException
                    (FailedReadItem (CosmosStoreState.id r)
                       (container_name s) (database_name s)) e),
           (s, with_account (served (account p)) p))
      | Ok item =>
          match CosmosStoreState.construct item with
          | Raise e => (Raise e, (s, with_account (served (account p)) p))
          | Ok d =>
              (Ok tt,
               (restored (CosmosStoreState.thread_id d) s,
                {| environ := environ p;
                   _messages := _messages p ++ CosmosStoreState.messages d;
                   account := served (account p) |}))
          end
      end
  end.
Proof.
  unfold deserialize_state. rewrite run_bind. unfold lift at 1.
  destruct (CosmosStoreState.model_validate ref) as [r|e]; [|done].
  rewrite run_bind, get_container_client_run, run_bind.
  unfold try_except, await, zoom. simpl.
  rewrite read_item_run. simpl.
  match goal with
  | |- context [match ?x with Ok _ => _ | Raise _ => _ end] =>
      destruct x as [item|e]
  end; [|done].
  rewrite run_bind. unfold lift at 1. simpl.
  by destruct (CosmosStoreState.construct item) as [d|e].
Qed.
End restore.

(** C2 (as amended). A restore for a thread identifier that has no document
    in the container raises, and what it raises is the generic
    [ServiceResponseException] that wraps the error of the read: the
    not-found error of the client when the read was served, the fault
    otherwise. It is no success: the store, the buffer and the databases are
    as before. *)
Theorem C2_missing_document_is_wrapped (ref : CosmosStoreState.Input)
    (r : CosmosStoreState.t)
    (s : CosmosChatMessageStore.t) (p : CosmosChatMessageStore.Process) :
  CosmosStoreState.model_validate ref = Ok r ->
  (forall cont,
     Cosmos.find_container (Cosmos.databases (CosmosChatMessageStore.account p))
       (CosmosChatMessageStore.database_name s, CosmosChatMessageStore.container_name s)
     = Some cont ->
     Cosmos.items cont !! (CosmosStoreState.thread_id r, Some (CosmosStoreState.thread_id r))
     = None) ->
  let cause :=
    match next_fault (CosmosChatMessageStore.account p) with
    | Some e => e
    | None => CosmosResourceNotFoundError
    end in
  let raised :=
    ServiceResponseException
      (FailedReadItem (CosmosStoreState.id r)
         (CosmosChatMessageStore.container_name s)
         (CosmosChatMessageStore.database_name s)) cause in
  CosmosChatMessageStore.deserialize_state ref (s, p) =
    (Raise raised, (s, with_account (served (CosmosChatMessageStore.account p)) p)) /\
  is_PersistenceError raised = true /\
  is_NotFoundError raised = false.
Proof.
  intros Hr Hmissing cause raised. split; [|done].
  rewrite deserialize_state_run, Hr, read_item_run. simpl.
  subst raised cause.
  destruct (next_fault (CosmosChatMessageStore.account p)); [done|].
  destruct (Cosmos.find_container _ _) as [cont|]; [|done].
  by rewrite (Hmissing cont eq_refl).
Qed.

Lemma C2_missing_document_is_wrapped_witness :
  let ref := CosmosStoreState.Mapping [("thread_id", PStr "T9")] in
  let s := Scenario.store "T1" false false in
  let p := Scenario.process [Scenario.A] Scenario.saved_account in
  CosmosChatMessageStore.deserialize_state ref (s, p) =
  (Raise (ServiceResponseException
            (FailedReadItem (Some "T9")
               CosmosChatMessageStore.default_container_name
               CosmosChatMessageStore.default_database_name)
            CosmosResourceNotFoundError),
   (s, p)).
Proof.
  intros ref s p.
  refine (proj1 (C2_missing_document_is_wrapped ref
    {| CosmosStoreState.id := Some "T9";
       CosmosStoreState.thread_id := "T9";
       CosmosStoreState.additional_properties := [];
       CosmosStoreState.messages := [] |} s p eq_refl _)).
  intros cont. vm_compute. by intros [= <-].
Defined.

(** C2 as the specification states it fails: on an existing, empty container the
    restore of an unknown thread raises an error that is of the generic
    class, not of the not-found class. *)
Lemma C2_not_a_not_found_error :
  let out :=
    CosmosChatMessageStore.deserialize_state
      (CosmosStoreState.Mapping [("thread_id", PStr "T9")])
      (Scenario.store "T1" false false, Scenario.process [] Scenario.ready_account) in
  exists e, out.1 = Raise e /\ is_NotFoundError e = false /\ is_PersistenceError e = true.
Proof. eexists. vm_compute. repeat split. Qed.

(** C9. When [deserialize_state] returns, a document was found under the
    thread identifier of the reference; the thread identifier of the store
    is now the one of that document, and the buffer is the buffer before
    followed by the messages of the document. Nothing else of the store
    changed. *)
Theorem C9_restore_is_additive (ref : CosmosStoreState.Input)
    (s s' : CosmosChatMessageStore.t) (p p' : CosmosChatMessageStore.Process) :
  CosmosChatMessageStore.deserialize_state ref (s, p) = (Ok tt, (s', p')) ->
  exists (r d : CosmosStoreState.t) (cont : Cosmos.Container) (item : Dict),
    CosmosStoreState.model_validate ref = Ok r /\
    Cosmos.find_container (Cosmos.databases (CosmosChatMessageStore.account p))
      (CosmosChatMessageStore.database_name s, CosmosChatMessageStore.container_name s)
    = Some cont /\
    Cosmos.items cont !! (CosmosStoreState.thread_id r, Some (CosmosStoreState.thread_id r))
    = Some item /\
    CosmosStoreState.construct item = Ok d /\
    s' = restored (CosmosStoreState.thread_id d) s /\
    CosmosChatMessageStore.thread_id s' = CosmosStoreState.thread_id d /\
    CosmosChatMessageStore._messages p' =
      CosmosChatMessageStore._messages p ++ CosmosStoreState.messages d.
Proof.
  rewrite deserialize_state_run.
  destruct (CosmosStoreState.model_validate ref) as [r|e]; [|discriminate].
  rewrite read_item_run. simpl.
  destruct (next_fault _); [discriminate|].
  destruct (Cosmos.find_container _ _) as [cont|]; [|discriminate].
  destruct (Cosmos.items cont !! _) as [item|] eqn:Hi; [|discriminate].
  destruct (CosmosStoreState.construct item) as [d|e] eqn:Hd; [|discriminate].
  intros [= <- <-]. by exists r, d, cont, item.
Qed.

Lemma C9_restore_is_additive_witness :
  let ref := CosmosStoreState.Mapping [("thread_id", PStr "T1")] in
  let s := Scenario.store "T0" false false in
  let p := Scenario.process [Scenario.B] Scenario.saved_account in
  exists s' p',
    CosmosChatMessageStore.deserialize_state ref (s, p) = (Ok tt, (s', p')) /\
    CosmosChatMessageStore.thread_id s' = "T1" /\
    CosmosChatMessageStore._messages p' = [Scenario.B; Scenario.A; Scenario.B].
Proof.
  intros ref s p. eexists _, _. split; [reflexivity|].
  destruct (C9_restore_is_additive ref s _ p _ eq_refl)
    as (r & d & cont & item & Hr & Hc & Hi & Hd & _ & Ht & Hm).
  injection Hr as <-. injection Hc as <-.
  vm_compute in Hi. injection Hi as <-.
  vm_compute in Hd. injection Hd as <-.
  split; [exact Ht | exact Hm].
Defined.



Lemma C4_eager_write_policy_witness :
  let eager := Scenario.store "T1" true false in
  let lazy := Scenario.store "T1" false false in
  let p := Scenario.process [] Scenario.ready_account in
  let written := CosmosChatMessageStore.add_messages [Scenario.A] (eager, p) in
  written.1 = Ok tt /\
  (Cosmos.read_item Scenario.default_container "T1" "T1"
     (CosmosChatMessageStore.account written.2.2)).1 = Ok (document "T1" [Scenario.A]) /\
  Cosmos.databases (CosmosChatMessageStore.account
    (session [AddMessages [Scenario.A]; ListMessages; AddMessages [Scenario.B]]
       (lazy, p)).2) =
  Cosmos.databases Scenario.ready_account.
Proof.
  intros eager lazy p written.
  destruct (C4_eager_write_policy [Scenario.A] eager p) as [Heager _].
  destruct (C4_eager_write_policy [Scenario.A] lazy p) as [_ Hlazy].
  subst written. rewrite (Heager eq_refl).
  split; [reflexivity|]. split; [reflexivity|].
  exact (proj2 (Hlazy eq_refl)
           [AddMessages [Scenario.A]; ListMessages; AddMessages [Scenario.B]] eq_refl).
Defined.

(** * Further properties *)

(** ** The existence checks *)

Section existence.
Import CosmosChatMessageStore.

Lemma read_database_run (name : string) (acc : Cosmos.Account) :
  Cosmos.read_database name acc =
  (match next_fault acc with
   | Some e => Raise e
   | None =>
       if database_exists (Cosmos.databases acc) name
       then Ok tt else Raise CosmosResourceNotFoundError
   end, served acc).
Proof.
  unfold Cosmos.read_database, database_exists. rewrite request_run. unfold served.
  destruct (next_fault acc); [done|]. cbv beta.
  by destruct (Cosmos.databases acc !! name).
Qed.

Lemma read_container_run (c : Cosmos.ContainerProxy) (acc : Cosmos.Account) :
  Cosmos.read_container c acc =
  (match next_fault acc with
   | Some e => Raise e
   | None =>
       if container_exists (Cosmos.databases acc) c
       then Ok tt else Raise CosmosResourceNotFoundError
   end, served acc).
Proof.
  unfold Cosmos.read_container, container_exists. rewrite request_run. unfold served.
  destruct (next_fault acc); [done|]. cbv beta.
  by destruct (Cosmos.find_container (Cosmos.databases acc) c).
Qed.

Lemma does_database_exist_run (s : t) (p : Process) :
  _does_database_exist (s, p) =
  (match next_fault (account p) with
   | Some CosmosResourceNotFoundError => Ok false
   | Some e => Raise (ServiceResponseException (FailedCheckDatabase (database_name s)) e)
   | None => Ok (database_exists (Cosmos.databases (account p)) (database_name s))
   end, (s, with_account (served (account p)) p)).
Proof.
  unfold _does_database_exist, try_except. rewrite run_bind. simpl.
  rewrite run_bind. unfold await, zoom. simpl.
  rewrite read_database_run. unfold Cosmos.get_database_client.
  destruct (next_fault (account p)) as [[]|]; try reflexivity.
  by destruct (database_exists _ _).
Qed.

Lemma does_container_exist_run (s : t) (p : Process) :
  _does_container_exist (s, p) =
  (match next_fault (account p) with
   | Some CosmosResourceNotFoundError => Ok false
   | Some e =>
       Raise (ServiceResponseException
                (FailedCheckContainer (container_name s) (database_name s)) e)
   | None =>
       Ok (container_exists (Cosmos.databases (account p))
             (database_name s, container_name s))
   end, (s, with_account (served (account p)) p)).
Proof.
  unfold _does_container_exist, try_except. rewrite run_bind. simpl.
  rewrite run_bind. unfold await, zoom. simpl.
  rewrite read_container_run.
  unfold Cosmos.get_container_client, Cosmos.get_database_client.
  destruct (next_fault (account p)) as [[]|]; try reflexivity.
  by destruct (container_exists _ _).
Qed.
End existence.

(** X1. [_does_database_exist] on a request that is served answers whether
    the account has the database, on a request that fails with not-found it
    answers no (also for a database that is there), and on any other failure
    it raises the [ServiceResponseException] that names the database and
    holds the failure as its cause. It changes neither store, buffer nor
    databases. *)
Theorem X1_database_check_outcomes
    (s : CosmosChatMessageStore.t) (p : CosmosChatMessageStore.Process) :
  let out := CosmosChatMessageStore._does_database_exist (s, p) in
  out.2 = (s, with_account (served (CosmosChatMessageStore.account p)) p) /\
  match next_fault (CosmosChatMessageStore.account p) with
  | None =>
      out.1 = Ok (database_exists
                    (Cosmos.databases (CosmosChatMessageStore.account p))
                    (CosmosChatMessageStore.database_name s))
  | Some e =>
      if is_NotFoundError e then out.1 = Ok false
      else out.1 = Raise (ServiceResponseException
                            (FailedCheckDatabase (CosmosChatMessageStore.database_name s)) e)
  end.
Proof.
  intros out. subst out. rewrite does_database_exist_run. split; [done|].
  by destruct (next_fault _) as [[]|].
Qed.

(** X2. [_does_container_exist] on a request that is served answers whether
    the database has the container, and no when the database itself is not
    there; a not-found failure reads as no, any other failure is raised
    wrapped with the names of container and database. It changes neither
    store, buffer nor databases. *)
Theorem X2_container_check_outcomes
    (s : CosmosChatMessageStore.t) (p : CosmosChatMessageStore.Process) :
  let out := CosmosChatMessageStore._does_container_exist (s, p) in
  let dbs := Cosmos.databases (CosmosChatMessageStore.account p) in
  out.2 = (s, with_account (served (CosmosChatMessageStore.account p)) p) /\
  match next_fault (CosmosChatMessageStore.account p) with
  | None =>
      out.1 = Ok (container_exists dbs
                    (CosmosChatMessageStore.database_name s,
                     CosmosChatMessageStore.container_name s)) /\
      (database_exists dbs (CosmosChatMessageStore.database_name s) = false ->
       out.1 = Ok false)
  | Some e =>
      if is_NotFoundError e then out.1 = Ok false
      else out.1 = Raise (ServiceResponseException
                            (FailedCheckContainer
                               (CosmosChatMessageStore.container_name s)
                               (CosmosChatMessageStore.database_name s)) e)
  end.
Proof.
  intros out dbs. subst out. rewrite does_container_exist_run. split; [done|].
  destruct (next_fault _) as [[]|]; try done. simpl. split; [done|].
  unfold database_exists, container_exists, Cosmos.find_container. simpl.
  fold dbs. by destruct (dbs !! _).
Qed.

Lemma X2_container_check_outcomes_witness :
  let s := Scenario.store "T1" false true in
  (CosmosChatMessageStore._does_container_exist
     (s, Scenario.process [] Scenario.empty_account)).1 = Ok false /\
  (CosmosChatMessageStore._does_container_exist
     (s, Scenario.process [] Scenario.ready_account)).1 = Ok true.
Proof.
  intros s. split.
  - exact (proj2 (proj2 (X2_container_check_outcomes s
             (Scenario.process [] Scenario.empty_account))) eq_refl).
  - exact (proj1 (proj2 (X2_container_check_outcomes s
             (Scenario.process [] Scenario.ready_account)))).
Defined.

(** ** The creation sequence *)

#[global] Instance keeps_containers_preorder : PreOrder keeps_containers.
Proof.
  split.
  - by intros s c cont.
  - intros s1 s2 s3 H12 H23 c cont Hc. by apply H23, H12.
Qed.

Section creation_sequence.
Import CosmosChatMessageStore.

Lemma create_database_run (name : string) (acc : Cosmos.Account) :
  Cosmos.create_database name acc =
  match next_fault acc with
  | Some e => (Raise e, served acc)
  | None =>
      match Cosmos.databases acc !! name with
      | Some _ => (Raise CosmosResourceExistsError, served acc)
      | None =>
          (Ok tt, {| Cosmos.databases := <[name := ∅]> (Cosmos.databases acc);
                     Cosmos.faults := tail (Cosmos.faults acc) |})
      end
  end.
Proof.
  unfold Cosmos.create_database. rewrite request_run. unfold served.
  destruct (next_fault acc); [done|]. cbv beta.
  by destruct (Cosmos.databases acc !! name).
Qed.

Lemma create_container_run (database name path : string) (acc : Cosmos.Account) :
  Cosmos.create_container database name path acc =
  match next_fault acc with
  | Some e => (Raise e, served acc)
  | None =>
      match Cosmos.databases acc !! database with
      | None => (Raise CosmosResourceNotFoundError, served acc)
      | Some db =>
          match db !! name with
          | Some _ => (Raise CosmosResourceExistsError, served acc)
          | None =>
              (Ok tt,
               {| Cosmos.databases :=
                    <[database := <[name := new_container path]> db]> (Cosmos.databases acc);
                  Cosmos.faults := tail (Cosmos.faults acc) |})
          end
      end
  end.
Proof.
  unfold Cosmos.create_container. rewrite request_run. unfold served.
  destruct (next_fault acc); [done|]. cbv beta.
  destruct (Cosmos.databases acc !! database) as [db|]; [|done].
  by destruct (db !! name).
Qed.

Lemma await_keeps_containers {A} (m : M Cosmos.Account A) :
  (forall acc c cont,
     Cosmos.find_container (Cosmos.databases acc) c = Some cont ->
     Cosmos.find_container (Cosmos.databases (m acc).2) c = Some cont) ->
  respects keeps_containers (await m).
Proof.
  intros Hm [s p] c cont. unfold await, zoom. simpl.
  specialize (Hm (account p) c cont). by destruct (m (account p)).
Qed.

Lemma read_database_keeps (name : string) :
  respects keeps_containers (await (Cosmos.read_database name)).
Proof.
  apply await_keeps_containers. intros acc c cont. by rewrite read_database_run.
Qed.

Lemma read_container_keeps (c0 : Cosmos.ContainerProxy) :
  respects keeps_containers (await (Cosmos.read_container c0)).
Proof.
  apply await_keeps_containers. intros acc c cont. by rewrite read_container_run.
Qed.

(** A database is created empty, and only under a name that is free. *)
Lemma create_database_keeps (name : string) :
  respects keeps_containers (await (Cosmos.create_database name)).
Proof.
  apply await_keeps_containers. intros acc c cont. rewrite create_database_run.
  destruct (next_fault acc); [done|].
  destruct (Cosmos.databases acc !! name) eqn:Hn; [done|]. simpl.
  unfold Cosmos.find_container. destruct (decide (c.1 = name)) as [->|Hne].
  - by rewrite Hn.
  - by rewrite lookup_insert_ne.
Qed.

(** A container is created only under a name that is free in its database. *)
Lemma create_container_keeps (database name path : string) :
  respects keeps_containers (await (Cosmos.create_container database name path)).
Proof.
  apply await_keeps_containers. intros acc c cont. rewrite create_container_run.
  destruct (next_fault acc); [done|].
  destruct (Cosmos.databases acc !! database) as [db|] eqn:Hd; [|done].
  destruct (db !! name) eqn:Hn; [done|]. simpl.
  unfold Cosmos.find_container. destruct (decide (c.1 = database)) as [->|Hne].
  - rewrite Hd, lookup_insert_eq. simpl.
    destruct (decide (c.2 = name)) as [->|Hne'].
    + by rewrite Hn.
    + by rewrite lookup_insert_ne.
  - by rewrite lookup_insert_ne.
Qed.

Lemma create_if_not_exists_keeps :
  respects keeps_containers _create_database_and_container_if_not_exists.
Proof.
  unfold _create_database_and_container_if_not_exists,
    _does_database_exist, _does_container_exist.
  pose proof read_database_keeps. pose proof read_container_keeps.
  pose proof create_database_keeps. pose proof create_container_keeps.
  respects_all.
Qed.

(** On a network that serves every request the sequence returns with the
    database and the container there. *)
Lemma create_if_not_exists_reliable (s : t) (p : Process) :
  Cosmos.faults (account p) = [] ->
  exists dbs,
    _create_database_and_container_if_not_exists (s, p) =
      (Ok tt, (s, with_account {| Cosmos.databases := dbs; Cosmos.faults := [] |} p)) /\
    Cosmos.find_container dbs (database_name s, container_name s) =
      Some (default (new_container (partition_key s))
              (Cosmos.find_container (Cosmos.databases (account p))
                 (database_name s, container_name s))).
Proof.
  intros Hf. destruct p as [env buf [dbs faults]]. simpl in Hf. subst faults.
  unfold _create_database_and_container_if_not_exists, try_except.
  unfold Cosmos.get_database_client.
  rewrite run_bind. simpl. rewrite run_bind, does_database_exist_run. simpl.
  unfold database_exists, Cosmos.find_container. simpl.
  destruct (dbs !! database_name s) as [db|] eqn:Hd; simpl.
  - rewrite run_bind. simpl. rewrite run_bind, does_container_exist_run. simpl.
    unfold container_exists, Cosmos.find_container. simpl. rewrite Hd. simpl.
    destruct (db !! container_name s) as [cont|] eqn:Hn; simpl.
    + eexists. split; [reflexivity|]. simpl. by rewrite Hd.
    + unfold await, zoom. simpl. rewrite create_container_run. simpl.
      rewrite Hd, Hn. simpl. eexists. split; [reflexivity|].
      rewrite lookup_insert_eq. simpl. by rewrite lookup_insert_eq.
  - rewrite run_bind. unfold await at 1, zoom. simpl.
    rewrite create_database_run. simpl. rewrite Hd. simpl.
    rewrite run_bind, does_container_exist_run. simpl.
    unfold container_exists, Cosmos.find_container. simpl.
    rewrite lookup_insert_eq. simpl. rewrite lookup_empty.
    unfold await, zoom. simpl. rewrite create_container_run. simpl.
    rewrite lookup_insert_eq, lookup_empty. simpl.
    eexists. split; [reflexivity|].
    rewrite lookup_insert_eq. simpl. by rewrite lookup_insert_eq.
Qed.
End creation_sequence.

Section creation_errors.
Import CosmosChatMessageStore.

(** Whatever the sequence raises comes out of its handler. *)
Lemma create_if_not_exists_raises (s : t) (p : Process) (e : Exn) (sp' : State) :
  _create_database_and_container_if_not_exists (s, p) = (Raise e, sp') ->
  exists cause,
    e = ServiceResponseException (FailedCreate (database_name s) (container_name s)) cause.
Proof.
  unfold _create_database_and_container_if_not_exists, try_except.
  match goal with
  | |- context [match ?m (s, p) with _ => _ end] =>
      assert (respects Frame.configuration m) as Hcfg
        by (unfold _does_database_exist, _does_container_exist;
            pose proof @await_configuration; respects_all);
      specialize (Hcfg (s, p)); destruct (m (s, p)) as [[[]|e0] [s' p']]
  end; [discriminate|].
  destruct Hcfg as [Hd Hc _ _ _]. simpl in *.
  rewrite run_bind. simpl. unfold raise. intros [= <- _]. rewrite Hd, Hc. by eexists.
Qed.

(** With database and container there, the sequence is two checks. *)
Lemma create_if_not_exists_present (s : t) (p : Process) :
  Cosmos.faults (account p) = [] ->
  container_exists (Cosmos.databases (account p)) (database_name s, container_name s) = true ->
  _create_database_and_container_if_not_exists (s, p) = (Ok tt, (s, p)).
Proof.
  intros Hf. destruct p as [env buf [dbs faults]]. simpl in Hf. subst faults.
  unfold container_exists, Cosmos.find_container. simpl.
  destruct (dbs !! database_name s) as [db|] eqn:Hd; simpl; [|discriminate].
  destruct (db !! container_name s) as [cont|] eqn:Hn; simpl; [|discriminate].
  intros _.
  unfold _create_database_and_container_if_not_exists, try_except.
  rewrite run_bind. simpl. rewrite run_bind, does_database_exist_run. simpl.
  unfold database_exists. rewrite Hd. simpl.
  rewrite run_bind. simpl. rewrite run_bind, does_container_exist_run. simpl.
  unfold container_exists, Cosmos.find_container. simpl. rewrite Hd. simpl.
  by rewrite Hn.
Qed.
End creation_errors.

(** X3. On a network that serves every request,
    [_create_database_and_container_if_not_exists] returns, and afterwards
    the container of the store is there: the one that was there before, as it
    was, or else a new empty one with the partition key path of the store.
    Store and buffer are as before. *)
Theorem X3_creation_sequence_establishes
    (s : CosmosChatMessageStore.t) (p : CosmosChatMessageStore.Process) :
  Cosmos.faults (CosmosChatMessageStore.account p) = [] ->
  let c := (CosmosChatMessageStore.database_name s,
            CosmosChatMessageStore.container_name s) in
  let out :=
    CosmosChatMessageStore._create_database_and_container_if_not_exists (s, p) in
  out.1 = Ok tt /\
  out.2.1 = s /\
  CosmosChatMessageStore._messages out.2.2 = CosmosChatMessageStore._messages p /\
  Cosmos.find_container (Cosmos.databases (CosmosChatMessageStore.account out.2.2)) c =
    Some (default (new_container (CosmosChatMessageStore.partition_key s))
            (Cosmos.find_container
               (Cosmos.databases (CosmosChatMessageStore.account p)) c)).
Proof.
  intros Hf c out. subst out c.
  destruct (create_if_not_exists_reliable s p Hf) as (dbs & -> & Hfind).
  by simpl.
Qed.

Lemma X3_creation_sequence_establishes_witness :
  let s := Scenario.store "T1" false true in
  let out :=
    CosmosChatMessageStore._create_database_and_container_if_not_exists
      (s, Scenario.process [Scenario.A] Scenario.empty_account) in
  out.1 = Ok tt /\
  Cosmos.find_container (Cosmos.databases (CosmosChatMessageStore.account out.2.2))
    Scenario.default_container = Some (new_container "/thread_id").
Proof.
  intros s out.
  destruct (X3_creation_sequence_establishes s
              (Scenario.process [Scenario.A] Scenario.empty_account) eq_refl)
    as (Hok & _ & _ & Hfind).
  split; [exact Hok | exact Hfind].
Defined.

(** X4. [_create_database_and_container_if_not_exists] never replaces,
    empties or removes a container that is there: whatever the network does
    and however the call ends, every container of the account is afterwards
    what it was, with its partition key path and its documents. *)
Theorem X4_creation_sequence_keeps_containers
    (s : CosmosChatMessageStore.t) (p : CosmosChatMessageStore.Process)
    (c : Cosmos.ContainerProxy) (cont : Cosmos.Container) :
  Cosmos.find_container (Cosmos.databases (CosmosChatMessageStore.account p)) c
    = Some cont ->
  Cosmos.find_container
    (Cosmos.databases (CosmosChatMessageStore.account
       (CosmosChatMessageStore._create_database_and_container_if_not_exists (s, p)).2.2)) c
    = Some cont.
Proof. apply (create_if_not_exists_keeps (s, p)). Qed.

Lemma X4_creation_sequence_keeps_containers_witness :
  exists cont,
    Cosmos.items cont !! ("T1", Some "T1") = Some (document "T1" [Scenario.A; Scenario.B]) /\
    Cosmos.find_container
      (Cosmos.databases (CosmosChatMessageStore.account
         (CosmosChatMessageStore._create_database_and_container_if_not_exists
            (Scenario.store "T2" false true,
             Scenario.process [] Scenario.saved_account)).2.2))
      Scenario.default_container = Some cont.
Proof.
  eexists. split; [|apply X4_creation_sequence_keeps_containers; reflexivity].
  reflexivity.
Defined.

(** X5. Whatever [_create_database_and_container_if_not_exists] raises is a
    [ServiceResponseException] that names the database and the container of
    the store. An error of an existence check is itself such an exception, so
    it arrives wrapped twice: the failed database check inside the failed
    creation. *)
Theorem X5_creation_errors_are_wrapped
    (s : CosmosChatMessageStore.t) (p : CosmosChatMessageStore.Process) :
  let out :=
    CosmosChatMessageStore._create_database_and_container_if_not_exists (s, p) in
  let failed :=
    FailedCreate (CosmosChatMessageStore.database_name s)
      (CosmosChatMessageStore.container_name s) in
  (forall e, out.1 = Raise e -> exists cause, e = ServiceResponseException failed cause) /\
  (forall e,
     next_fault (CosmosChatMessageStore.account p) = Some e ->
     is_NotFoundError e = false ->
     out.1 = Raise (ServiceResponseException failed
                      (ServiceResponseException
                         (FailedCheckDatabase (CosmosChatMessageStore.database_name s)) e))).
Proof.
  intros out failed. subst out failed. split.
  - intros e He.
    destruct (CosmosChatMessageStore._create_database_and_container_if_not_exists (s, p))
      as [r sp'] eqn:Hrun.
    simpl in He. subst r. by eapply create_if_not_exists_raises.
  - intros e Hnext Hnf.
    unfold CosmosChatMessageStore._create_database_and_container_if_not_exists, try_except.
    rewrite run_bind. simpl. rewrite run_bind, does_database_exist_run, Hnext.
    by destruct e.
Qed.

Lemma X5_creation_errors_are_wrapped_witness :
  let s := Scenario.store "T1" false true in
  let flaky :=
    {| Cosmos.databases := ∅; Cosmos.faults := [Some (CosmosHttpResponseError 503)] |} in
  (CosmosChatMessageStore._create_database_and_container_if_not_exists
     (s, Scenario.process [] flaky)).1 =
  Raise (ServiceResponseException
           (FailedCreate CosmosChatMessageStore.default_database_name
              CosmosChatMessageStore.default_container_name)
           (ServiceResponseException
              (FailedCheckDatabase CosmosChatMessageStore.default_database_name)
              (CosmosHttpResponseError 503))).
Proof.
  intros s flaky.
  exact (proj2 (X5_creation_errors_are_wrapped s (Scenario.process [] flaky))
           (CosmosHttpResponseError 503) eq_refl eq_refl).
Defined.

(** X6. With the database and the container of the store there and the
    network serving, [_create_database_and_container_if_not_exists] creates
    nothing and changes nothing: it returns and the whole state is as
    before. *)
Theorem X6_creation_sequence_is_idle_when_present
    (s : CosmosChatMessageStore.t) (p : CosmosChatMessageStore.Process) :
  Cosmos.faults (CosmosChatMessageStore.account p) = [] ->
  container_exists (Cosmos.databases (CosmosChatMessageStore.account p))
    (CosmosChatMessageStore.database_name s, CosmosChatMessageStore.container_name s)
    = true ->
  CosmosChatMessageStore._create_database_and_container_if_not_exists (s, p) =
    (Ok tt, (s, p)).
Proof. apply create_if_not_exists_present. Qed.

Lemma X6_creation_sequence_is_idle_when_present_witness :
  let sp := (Scenario.store "T1" false true, Scenario.process [] Scenario.saved_account) in
  CosmosChatMessageStore._create_database_and_container_if_not_exists sp = (Ok tt, sp).
Proof.
  intros sp. by apply X6_creation_sequence_is_idle_when_present.
Defined.

(** ** Saving *)

Section persisting.
Import CosmosChatMessageStore.

(** The second half of [serialize_state], step by step. *)
Lemma persist_run (kwargs : Dict) (s : t) (p : Process) :
  persist kwargs (s, p) =
  match state_arguments (thread_id s) (_messages p) kwargs
        ≫= CosmosStoreState.construct with
  | Raise e => (Raise e, (s, p))
  | Ok st =>
      (match (Cosmos.upsert_item (database_name s, container_name s)
                (CosmosStoreState.model_dump st) (account p)).1 with
       | Ok _ => Ok (thread_id s)
       | Raise e => Raise e
       end,
       (s, with_account
             (Cosmos.upsert_item (database_name s, container_name s)
                (CosmosStoreState.model_dump st) (account p)).2 p))
  end.
Proof.
  unfold persist. rewrite run_bind. simpl. rewrite run_bind. simpl.
  rewrite run_bind. unfold lift at 1.
  destruct (state_arguments _ _ _ ≫= _) as [st|e]; [|done].
  rewrite run_bind, get_container_client_run. simpl.
  rewrite run_bind. unfold await, zoom. simpl.
  by destruct (Cosmos.upsert_item _ _ (account p)) as [[[]|e] acc'].
Qed.
End persisting.

#[global] Instance keeps_other_documents_preorder (T : string) :
  PreOrder (keeps_other_documents T).
Proof.
  split.
  - intros s c cont Hc. by exists cont.
  - intros s1 s2 s3 H12 H23 c cont Hc.
    destruct (H12 c cont Hc) as (cont2 & Hc2 & Hpk2 & Hi2).
    destruct (H23 c cont2 Hc2) as (cont3 & Hc3 & Hpk3 & Hi3).
    exists cont3. split; [done|]. split; [congruence|].
    intros key Hkey. rewrite Hi3, Hi2; done.
Qed.

Section saving.
Import CosmosChatMessageStore.

Lemma keeps_containers_other_documents (T : string) (s s' : State) :
  keeps_containers s s' -> keeps_other_documents T s s'.
Proof. intros H c cont Hc. exists cont. split; [by apply H | done]. Qed.

(** The state that the call in [serialize_state] constructs has the thread
    identifier of the store as id and as thread id, and the buffer as
    messages, whatever else the keyword arguments bring. *)
Lemma constructed_fields (T : string) (msgs : list ChatMessage) (kwargs : Dict)
    (st : CosmosStoreState.t) :
  state_arguments T msgs kwargs ≫= CosmosStoreState.construct = Ok st ->
  CosmosStoreState.id st = Some T /\
  CosmosStoreState.thread_id st = T /\
  CosmosStoreState.messages st = msgs.
Proof.
  unfold state_arguments.
  destruct (dict_mem "id" kwargs || dict_mem "thread_id" kwargs || dict_mem "messages" kwargs);
    [discriminate|].
  unfold mbind at 1, Result_bind at 1. unfold CosmosStoreState.construct.
  rewrite set_id_from_thread_id_explicit by reflexivity.
  unfold CosmosStoreState.validate_fields. simpl.
  rewrite instances_validate. unfold mbind, Result_bind.
  destruct (dict_get "additional_properties" kwargs) as [[]|]; try discriminate;
    by intros [= <-].
Qed.

(** A keyword given twice ends the second half before any request. *)
Lemma persist_duplicate (kwargs : Dict) (s : t) (p : Process) :
  dict_mem "id" kwargs || dict_mem "thread_id" kwargs || dict_mem "messages" kwargs = true ->
  persist kwargs (s, p) = (Raise TypeError, (s, p)).
Proof.
  intros H. rewrite persist_run. unfold state_arguments. by rewrite H.
Qed.

(** An upsert touches the documents of one id. *)
Lemma upsert_item_keeps_others (c : Cosmos.ContainerProxy) (body : Dict) (T : string)
    (acc : Cosmos.Account) (c0 : Cosmos.ContainerProxy) (cont : Cosmos.Container) :
  dict_get "id" body = Some (PStr T) ->
  Cosmos.find_container (Cosmos.databases acc) c0 = Some cont ->
  exists cont',
    Cosmos.find_container (Cosmos.databases (Cosmos.upsert_item c body acc).2) c0
      = Some cont' /\
    Cosmos.partition_key cont' = Cosmos.partition_key cont /\
    forall key : string * option string,
      key.1 <> T -> Cosmos.items cont' !! key = Cosmos.items cont !! key.
Proof.
  intros Hid Hc0. unfold Cosmos.upsert_item. rewrite request_run.
  destruct (next_fault acc); [by exists cont|]. cbv beta. rewrite Hid.
  destruct (Cosmos.databases acc !! c.1) as [db|] eqn:Hd; [|by exists cont].
  destruct (db !! c.2) as [contc|] eqn:Hn; [|by exists cont].
  simpl. unfold Cosmos.find_container in *.
  destruct (decide (c0.1 = c.1)) as [E1|Hne].
  - rewrite E1 in *. rewrite Hd in Hc0. simpl in Hc0.
    rewrite lookup_insert_eq. simpl.
    destruct (decide (c0.2 = c.2)) as [E2|Hne'].
    + rewrite E2 in *. rewrite Hn in Hc0. injection Hc0 as <-.
      rewrite lookup_insert_eq. eexists. split; [reflexivity|]. split; [done|].
      intros key Hkey. simpl. apply lookup_insert_ne. intros <-. by apply Hkey.
    + rewrite lookup_insert_ne by done. by exists cont.
  - rewrite lookup_insert_ne by done. by exists cont.
Qed.

Lemma persist_keeps_other_documents (kwargs : Dict) (s : t) (p : Process) :
  keeps_other_documents (thread_id s) (s, p) (persist kwargs (s, p)).2.
Proof.
  rewrite persist_run.
  destruct (state_arguments _ _ _ ≫= _) as [st|e] eqn:Hst; [|reflexivity].
  apply constructed_fields in Hst as (Hid & _ & _).
  intros c0 cont Hc0. simpl.
  apply upsert_item_keeps_others; [|done].
  unfold CosmosStoreState.model_dump. simpl. by rewrite Hid.
Qed.

Lemma serialize_state_keeps_other_documents (kwargs : Dict) (s : t) (p : Process) :
  keeps_other_documents (thread_id s) (s, p) (serialize_state kwargs (s, p)).2.
Proof.
  destruct (_create_container_and_database s) eqn:E.
  - rewrite serialize_state_pending by done.
    pose proof (create_if_not_exists_keeps (s, p)) as Hk.
    destruct (create_if_not_exists_serialize (s, p)) as [_ Ht _ _ _ _ _ _].
    destruct (_create_database_and_container_if_not_exists (s, p))
      as [[[]|e] [s' p']]; simpl in *.
    + rewrite run_bind. simpl.
      etransitivity; [apply keeps_containers_other_documents, Hk|].
      rewrite <- Ht.
      match goal with
      | |- context [persist kwargs (?s0, p')] =>
          change (thread_id s') with (thread_id s0);
          apply (persist_keeps_other_documents kwargs s0 p')
      end.
    + by apply keeps_containers_other_documents.
  - rewrite serialize_state_settled by done. apply persist_keeps_other_documents.
Qed.
End saving.

Section saving_twice.
Import CosmosChatMessageStore.

Lemma upsert_item_served (c : Cosmos.ContainerProxy) (body : Dict) (i : string)
    (acc : Cosmos.Account) (cont : Cosmos.Container) :
  Cosmos.find_container (Cosmos.databases acc) c = Some cont ->
  next_fault acc = None ->
  dict_get "id" body = Some (PStr i) ->
  Cosmos.upsert_item c body acc =
  (Ok tt, upserted c (i, Cosmos.partition_value (Cosmos.partition_key cont) body) body acc).
Proof.
  intros Hc Hnet Hid. unfold Cosmos.upsert_item. rewrite request_run, Hnet. cbv beta.
  unfold upserted, Cosmos.find_container in *.
  destruct (Cosmos.databases acc !! c.1) as [db|]; [|discriminate]. simpl in Hc.
  rewrite Hc, Hid. reflexivity.
Qed.

(** The same document upserted again leaves the databases as they are. *)
Lemma upserted_twice (c : Cosmos.ContainerProxy) (key : string * option string)
    (doc : Dict) (acc : Cosmos.Account) (cont : Cosmos.Container) :
  Cosmos.find_container (Cosmos.databases acc) c = Some cont ->
  Cosmos.databases (upserted c key doc (upserted c key doc acc)) =
  Cosmos.databases (upserted c key doc acc).
Proof.
  unfold Cosmos.find_container, upserted. simpl.
  destruct (Cosmos.databases acc !! c.1) as [db|] eqn:Hd; simpl; [|discriminate].
  intros Hn. rewrite Hn. rewrite lookup_insert_eq, lookup_insert_eq. simpl.
  by rewrite !insert_insert_eq.
Qed.

Lemma serialize_state_ok_settled (kwargs : Dict) (s s1 : t) (p p1 : Process)
    (tok : string) :
  serialize_state kwargs (s, p) = (Ok tok, (s1, p1)) ->
  _create_container_and_database s1 = false.
Proof.
  intros H. destruct (_create_container_and_database s) eqn:E.
  - pose proof (serialize_state_clears kwargs s p E) as Hc.
    destruct (_create_database_and_container_if_not_exists (s, p)) as [[[]|e] s'].
    + by rewrite H in Hc.
    + destruct Hc as [Hc _]. congruence.
  - pose proof (call_settled (SerializeState kwargs) (s, p) E) as [Hc _].
    simpl in Hc. by rewrite H in Hc.
Qed.
End saving_twice.

(** X7. A keyword argument of [serialize_state] named [id], [thread_id] or
    [messages] collides with the arguments the method passes itself: the call
    raises, never returns, and writes no document; every container is
    afterwards what it was. Without pending creation it raises [TypeError]
    before any request and changes nothing at all. *)
Theorem X7_colliding_keyword_raises (kwargs : Dict)
    (s : CosmosChatMessageStore.t) (p : CosmosChatMessageStore.Process) :
  dict_mem "id" kwargs || dict_mem "thread_id" kwargs || dict_mem "messages" kwargs = true ->
  let out := CosmosChatMessageStore.serialize_state kwargs (s, p) in
  (exists e, out.1 = Raise e) /\
  keeps_containers (s, p) out.2 /\
  (CosmosChatMessageStore._create_container_and_database s = false ->
   out = (Raise TypeError, (s, p))).
Proof.
  intros Hdup out. subst out.
  destruct (CosmosChatMessageStore._create_container_and_database s) eqn:E.
  - rewrite serialize_state_pending by done.
    pose proof (create_if_not_exists_keeps (s, p)) as Hk.
    destruct (CosmosChatMessageStore._create_database_and_container_if_not_exists (s, p))
      as [[[]|e] [s' p']]; simpl in *.
    + rewrite run_bind. simpl. rewrite persist_duplicate by done.
      split; [by eexists|]. split; [exact Hk | discriminate].
    + split; [by eexists|]. split; [exact Hk | discriminate].
  - rewrite serialize_state_settled, persist_duplicate by done.
    split; [by eexists|]. split; [reflexivity | done].
Qed.

Lemma X7_colliding_keyword_raises_witness :
  let sp := (Scenario.store "T1" false false,
             Scenario.process [Scenario.A] Scenario.saved_account) in
  CosmosChatMessageStore.serialize_state [("thread_id", PStr "T2")] sp =
  (Raise TypeError, sp).
Proof.
  intros sp.
  exact (proj2 (proj2 (X7_colliding_keyword_raises [("thread_id", PStr "T2")]
                         sp.1 sp.2 eq_refl)) eq_refl).
Defined.

(** X8. Without pending creation [serialize_state()] is one upsert, and an
    error of that request is raised as the client raised it, not wrapped in a
    [ServiceResponseException]: the fault of the network when the request
    fails, the not-found error when the container is not there. Nothing is
    created for the missing container, and store and buffer are as before. *)
Theorem X8_upsert_errors_are_not_wrapped
    (s : CosmosChatMessageStore.t) (p : CosmosChatMessageStore.Process) :
  CosmosChatMessageStore._create_container_and_database s = false ->
  let acc := CosmosChatMessageStore.account p in
  let out := CosmosChatMessageStore.serialize_state [] (s, p) in
  match next_fault acc with
  | Some e => out = (Raise e, (s, with_account (served acc) p))
  | None =>
      container_exists (Cosmos.databases acc)
        (CosmosChatMessageStore.database_name s,
         CosmosChatMessageStore.container_name s) = false ->
      out = (Raise CosmosResourceNotFoundError, (s, with_account (served acc) p))
  end.
Proof.
  intros E acc out. subst out acc.
  assert (forall r,
    (Cosmos.upsert_item
       (CosmosChatMessageStore.database_name s, CosmosChatMessageStore.container_name s)
       (document (CosmosChatMessageStore.thread_id s) (CosmosChatMessageStore._messages p))
       (CosmosChatMessageStore.account p)) =
      (Raise r, served (CosmosChatMessageStore.account p)) ->
    CosmosChatMessageStore.serialize_state [] (s, p) =
      (Raise r, (s, with_account (served (CosmosChatMessageStore.account p)) p))) as Hraise.
  { intros r Hr. rewrite serialize_state_settled, persist_run by done.
    rewrite (proj1 (state_constructed _ _)).
    unfold mbind at 1, Result_bind at 1. rewrite (proj2 (state_constructed _ _)).
    fold (document (CosmosChatMessageStore.thread_id s) (CosmosChatMessageStore._messages p)).
    by rewrite Hr. }
  destruct (next_fault (CosmosChatMessageStore.account p)) eqn:Hnet.
  - apply Hraise. unfold Cosmos.upsert_item. by rewrite request_run, Hnet.
  - intros Hmissing. apply Hraise. unfold Cosmos.upsert_item.
    rewrite request_run, Hnet. cbv beta.
    unfold container_exists, Cosmos.find_container in Hmissing. simpl in Hmissing.
    destruct (Cosmos.databases _ !! _) as [db|]; simpl in *; [|reflexivity].
    destruct (db !! _); [discriminate | reflexivity].
Qed.

Lemma X8_upsert_errors_are_not_wrapped_witness :
  let s := Scenario.store "T1" false false in
  let p := Scenario.process [Scenario.A] Scenario.empty_account in
  CosmosChatMessageStore.serialize_state [] (s, p) =
  (Raise CosmosResourceNotFoundError, (s, p)).
Proof.
  intros s p. exact (X8_upsert_errors_are_not_wrapped s p eq_refl eq_refl).
Defined.

(** X9. [serialize_state] touches the documents of its own thread only:
    however the call ends, every container that was there is still there
    with the same partition key path, and every document whose id is not the
    thread identifier of the store is as it was. *)
Theorem X9_serialize_state_keeps_other_threads (kwargs : Dict)
    (s : CosmosChatMessageStore.t) (p : CosmosChatMessageStore.Process)
    (c : Cosmos.ContainerProxy) (cont : Cosmos.Container) :
  Cosmos.find_container (Cosmos.databases (CosmosChatMessageStore.account p)) c
    = Some cont ->
  exists cont',
    Cosmos.find_container
      (Cosmos.databases (CosmosChatMessageStore.account
         (CosmosChatMessageStore.serialize_state kwargs (s, p)).2.2)) c = Some cont' /\
    Cosmos.partition_key cont' = Cosmos.partition_key cont /\
    forall key : string * option string,
      key.1 <> CosmosChatMessageStore.thread_id s ->
      Cosmos.items cont' !! key = Cosmos.items cont !! key.
Proof. apply (serialize_state_keeps_other_documents kwargs s p). Qed.

Lemma X9_serialize_state_keeps_other_threads_witness :
  let s := Scenario.store "T2" false false in
  let p := Scenario.process [Scenario.B] Scenario.saved_account in
  exists cont',
    Cosmos.find_container
      (Cosmos.databases (CosmosChatMessageStore.account
         (CosmosChatMessageStore.serialize_state [] (s, p)).2.2))
      Scenario.default_container = Some cont' /\
    Cosmos.items cont' !! ("T1", Some "T1") =
      Some (document "T1" [Scenario.A; Scenario.B]) /\
    Cosmos.items cont' !! ("T2", Some "T2") = Some (document "T2" [Scenario.B]).
Proof.
  intros s p.
  destruct (X9_serialize_state_keeps_other_threads [] s p Scenario.default_container _ eq_refl)
    as (cont' & Hc & _ & Hkeep).
  exists cont'. split; [exact Hc|]. split.
  - rewrite Hkeep; [reflexivity | discriminate].
  - vm_compute in Hc. injection Hc as <-. reflexivity.
Defined.

(** X10. Saving twice is saving once: after a [serialize_state()] that
    returned, a second one served by the network returns the same token and
    leaves the databases, the store and the buffer exactly as the first left
    them. *)
Theorem X10_serialize_state_is_idempotent
    (s s1 : CosmosChatMessageStore.t) (p p1 : CosmosChatMessageStore.Process)
    (tok : string) :
  CosmosChatMessageStore.serialize_state [] (s, p) = (Ok tok, (s1, p1)) ->
  next_fault (CosmosChatMessageStore.account p1) = None ->
  exists acc2,
    CosmosChatMessageStore.serialize_state [] (s1, p1) =
      (Ok tok, (s1, with_account acc2 p1)) /\
    Cosmos.databases acc2 = Cosmos.databases (CosmosChatMessageStore.account p1).
Proof.
  intros Hsave Hnet.
  pose proof (serialize_state_ok_settled _ _ _ _ _ _ Hsave) as Hflag.
  apply serialize_state_ok in Hsave as (s0 & p0 & Hpersist & _ & _ & _ & _).
  apply persist_ok in Hpersist as (-> & -> & cont & Hfind & ->).
  rewrite serialize_state_settled, persist_run by done.
  rewrite (proj1 (state_constructed _ _)).
  unfold mbind at 1, Result_bind at 1. rewrite (proj2 (state_constructed _ _)).
  fold (document (CosmosChatMessageStore.thread_id s0)
          (CosmosChatMessageStore._messages
             (with_account
                (upserted
                   (CosmosChatMessageStore.database_name s0,
                    CosmosChatMessageStore.container_name s0)
                   (CosmosChatMessageStore.thread_id s0,
                    Cosmos.partition_value (Cosmos.partition_key cont)
                      (document (CosmosChatMessageStore.thread_id s0)
                         (CosmosChatMessageStore._messages p0)))
                   (document (CosmosChatMessageStore.thread_id s0)
                      (CosmosChatMessageStore._messages p0))
                   (CosmosChatMessageStore.account p0)) p0))).
  simpl in Hnet |- *.
  erewrite upsert_item_served;
    [| by apply find_container_upserted | done | reflexivity].
  simpl. eexists. split; [reflexivity|].
  by eapply upserted_twice.
Qed.

Lemma X10_serialize_state_is_idempotent_witness :
  let s := Scenario.store "T1" false true in
  let p := Scenario.process [Scenario.A; Scenario.B] Scenario.empty_account in
  let first := CosmosChatMessageStore.serialize_state [] (s, p) in
  let second := CosmosChatMessageStore.serialize_state [] first.2 in
  first.1 = Ok "T1" /\ second.1 = Ok "T1" /\
  Cosmos.databases (CosmosChatMessageStore.account second.2.2) =
  Cosmos.databases (CosmosChatMessageStore.account first.2.2).
Proof.
  intros s p first second. split; [reflexivity|].
  destruct (X10_serialize_state_is_idempotent s first.2.1 p first.2.2 "T1"
              eq_refl eq_refl) as (acc2 & Hrun & Hdbs).
  change (first.2.1, first.2.2) with first.2 in Hrun.
  subst second. rewrite Hrun. split; [reflexivity | exact Hdbs].
Defined.

(** ** Dumps *)

Lemma dump_metadata_plain (md : list (string * string)) :
  map (fun kv : string * PyVal => (kv.1, dump_value kv.2))
      (map (fun kv : string * string => (kv.1, PStr kv.2)) md) =
  map (fun kv : string * string => (kv.1, PStr kv.2)) md.
Proof. induction md as [|kv md IH]; simpl; [done|]. by rewrite IH. Qed.

(** Dumping a dump changes nothing. *)
Lemma dump_value_idempotent (v : PyVal) : dump_value (dump_value v) = dump_value v.
Proof.
  revert v. fix IH 1. intros [| | | |l|d|m]; simpl; try reflexivity.
  - f_equal. induction l as [|x l IHl]; simpl; [done|]. by rewrite IH, IHl.
  - f_equal. induction d as [|[k x] d IHd]; simpl; [done|]. by rewrite IH, IHd.
  - by rewrite dump_metadata_plain.
Qed.

(** A dump holds no model instance. *)
Lemma dump_value_plain (v : PyVal) : is_plain (dump_value v) = true.
Proof.
  revert v. fix IH 1. intros [| | | |l|d|m]; simpl; try reflexivity.
  - induction l as [|x l IHl]; simpl; [done|]. by rewrite IH, IHl.
  - induction d as [|[k x] d IHd]; simpl; [done|]. by rewrite IH, IHd.
  - induction (metadata m) as [|kv md IHmd]; simpl; [done|]. exact IHmd.
Qed.

(** Plain data is its own dump. *)
Lemma dump_value_of_plain (v : PyVal) : is_plain v = true -> dump_value v = v.
Proof.
  revert v. fix IH 1. intros [| | | |l|d|m]; simpl; try reflexivity; try discriminate.
  - intros H. f_equal. induction l as [|x l IHl]; simpl in *; [done|].
    apply andb_prop in H as [Hx Hl]. by rewrite IH, IHl.
  - intros H. f_equal. induction d as [|[k x] d IHd]; simpl in *; [done|].
    apply andb_prop in H as [Hx Hd]. by rewrite IH, IHd.
Qed.

Lemma dump_properties_idempotent (ap : Dict) :
  map (fun kv : string * PyVal => (kv.1, dump_value kv.2))
      (map (fun kv : string * PyVal => (kv.1, dump_value kv.2)) ap) =
  map (fun kv : string * PyVal => (kv.1, dump_value kv.2)) ap.
Proof.
  induction ap as [|kv ap IH]; simpl; [done|].
  by rewrite dump_value_idempotent, IH.
Qed.

(** What validation reads back from the dump of a state. *)
Lemma model_dump_construct (st : CosmosStoreState.t) :
  CosmosStoreState.construct (CosmosStoreState.model_dump st) =
  Ok {| CosmosStoreState.id := CosmosStoreState.id st;
        CosmosStoreState.thread_id := CosmosStoreState.thread_id st;
        CosmosStoreState.additional_properties :=
          map (fun kv => (kv.1, dump_value kv.2)) (CosmosStoreState.additional_properties st);
        CosmosStoreState.messages := CosmosStoreState.messages st |}.
Proof.
  unfold CosmosStoreState.construct, CosmosStoreState.model_dump.
  rewrite set_id_from_thread_id_explicit by reflexivity.
  unfold CosmosStoreState.validate_fields. simpl.
  rewrite messages_round_trip. by destruct (CosmosStoreState.id st).
Qed.

(** X11. Round trip of the persisted-state model. The dump of a state
    validates, and to a state with the same id, thread identifier and
    messages, whose additional properties are the dumped ones; dumping that
    state gives the same document again, and the document holds plain data
    only, no model instance. *)
Theorem X11_state_dump_round_trip (st : CosmosStoreState.t) :
  exists st',
    CosmosStoreState.construct (CosmosStoreState.model_dump st) = Ok st' /\
    CosmosStoreState.id st' = CosmosStoreState.id st /\
    CosmosStoreState.thread_id st' = CosmosStoreState.thread_id st /\
    CosmosStoreState.messages st' = CosmosStoreState.messages st /\
    CosmosStoreState.model_dump st' = CosmosStoreState.model_dump st /\
    forallb (fun kv => is_plain kv.2) (CosmosStoreState.model_dump st) = true.
Proof.
  eexists. split; [apply model_dump_construct|]. simpl.
  repeat split.
  - unfold CosmosStoreState.model_dump. simpl. by rewrite dump_properties_idempotent.
  - unfold CosmosStoreState.model_dump. simpl.
    assert (forallb (fun kv : string * PyVal => is_plain kv.2)
              (map (fun kv : string * PyVal => (kv.1, dump_value kv.2))
                 (CosmosStoreState.additional_properties st)) = true) as ->.
    { induction (CosmosStoreState.additional_properties st) as [|kv ap IH]; simpl; [done|].
      by rewrite dump_value_plain, IH. }
    assert (forallb is_plain
              (map ChatMessageModel.model_dump (CosmosStoreState.messages st)) = true) as ->.
    { induction (CosmosStoreState.messages st) as [|m ms IH]; simpl; [done|].
      rewrite IH, andb_true_r.
      change (is_plain (dump_value (PMsg m)) = true). apply dump_value_plain. }
    by destruct (CosmosStoreState.id st).
Qed.

(** X12. A state whose additional properties are plain data is read back
    from its dump exactly. *)
Theorem X12_plain_state_round_trip (st : CosmosStoreState.t) :
  forallb (fun kv => is_plain kv.2) (CosmosStoreState.additional_properties st) = true ->
  CosmosStoreState.construct (CosmosStoreState.model_dump st) = Ok st.
Proof.
  intros Hplain. rewrite model_dump_construct. destruct st as [i t ap ms]. simpl in *.
  do 2 f_equal. induction ap as [|[k v] ap IH]; simpl in *; [done|].
  apply andb_prop in Hplain as [Hv Hap]. by rewrite dump_value_of_plain, IH.
Qed.

Lemma X12_plain_state_round_trip_witness :
  let st :=
    {| CosmosStoreState.id := Some "doc-1";
       CosmosStoreState.thread_id := "T1";
       CosmosStoreState.additional_properties :=
         [("user_id", PStr "user123"); ("tags", PList [PStr "a"; PInt 2; PNone])];
       CosmosStoreState.messages := [Scenario.A; Scenario.B] |} in
  CosmosStoreState.construct (CosmosStoreState.model_dump st) = Ok st.
Proof. intros st. by apply X12_plain_state_round_trip. Defined.

Section stored_document.
Import CosmosChatMessageStore.

(** A [serialize_state] that returns, with any keyword arguments: what the
    account then holds. *)
Lemma serialize_state_stored (kwargs : Dict) (s s1 : t) (p p1 : Process) (tok : string) :
  serialize_state kwargs (s, p) = (Ok tok, (s1, p1)) ->
  tok = thread_id s /\
  exists (st : CosmosStoreState.t) (cont : Cosmos.Container) (key : string * option string),
    CosmosStoreState.id st = Some (thread_id s) /\
    CosmosStoreState.thread_id st = thread_id s /\
    CosmosStoreState.messages st = _messages p /\
    key.1 = thread_id s /\
    Cosmos.find_container (Cosmos.databases (account p1))
      (database_name s, container_name s) = Some cont /\
    Cosmos.items cont !! key = Some (CosmosStoreState.model_dump st).
Proof.
  intros Hsave.
  apply serialize_state_ok in Hsave as (s0 & p0 & Hpersist & Ht & Hd & Hc & Hm).
  rewrite persist_run in Hpersist.
  destruct (state_arguments _ _ _ ≫= _) as [st|e] eqn:Hst; [|discriminate].
  apply constructed_fields in Hst as (Hid & Htid & Hmsgs).
  destruct (Cosmos.upsert_item _ _ (account p0)) as [[[]|e] acc'] eqn:Hu;
    simpl in Hpersist; [|discriminate].
  injection Hpersist as <- <- <-.
  apply upsert_item_ok in Hu as (cont & i & Hfind & Hi & ->).
  unfold CosmosStoreState.model_dump in Hi. simpl in Hi. rewrite Hid in Hi.
  injection Hi as <-.
  split; [done|].
  eexists st, _, (thread_id s0, _). rewrite <- Ht, <- Hd, <- Hc, <- Hm.
  repeat split; try done.
  - simpl. by apply find_container_upserted.
  - simpl. apply lookup_insert_eq.
Qed.
End stored_document.

(** X13. When [serialize_state] returns, with whatever keyword arguments, it
    returns the thread identifier, and the container of the store holds,
    under that identifier as id, a document that validates to a state with
    that identifier as id and as thread id and with exactly the messages of
    the buffer, in their order. *)
Theorem X13_serialize_state_stores_the_buffer (kwargs : Dict)
    (s s1 : CosmosChatMessageStore.t) (p p1 : CosmosChatMessageStore.Process)
    (tok : string) :
  CosmosChatMessageStore.serialize_state kwargs (s, p) = (Ok tok, (s1, p1)) ->
  tok = CosmosChatMessageStore.thread_id s /\
  exists (cont : Cosmos.Container) (key : string * option string)
         (doc : Dict) (d : CosmosStoreState.t),
    Cosmos.find_container (Cosmos.databases (CosmosChatMessageStore.account p1))
      (CosmosChatMessageStore.database_name s, CosmosChatMessageStore.container_name s)
      = Some cont /\
    key.1 = CosmosChatMessageStore.thread_id s /\
    Cosmos.items cont !! key = Some doc /\
    CosmosStoreState.construct doc = Ok d /\
    CosmosStoreState.id d = Some (CosmosChatMessageStore.thread_id s) /\
    CosmosStoreState.thread_id d = CosmosChatMessageStore.thread_id s /\
    CosmosStoreState.messages d = CosmosChatMessageStore._messages p.
Proof.
  intros Hsave.
  apply serialize_state_stored in Hsave
    as (Htok & st & cont & key & Hid & Htid & Hmsgs & Hkey & Hfind & Hitem).
  split; [done|].
  exists cont, key, (CosmosStoreState.model_dump st). eexists.
  split; [done|]. split; [done|]. split; [done|].
  split; [apply model_dump_construct|]. by simpl.
Qed.

Lemma X13_serialize_state_stores_the_buffer_witness :
  let s := Scenario.store "T1" false true in
  let p := Scenario.process [Scenario.A; Scenario.B] Scenario.empty_account in
  let saved := CosmosChatMessageStore.serialize_state [("user_id", PStr "user123")] (s, p) in
  saved.1 = Ok "T1" /\
  exists cont key doc d,
    Cosmos.find_container
      (Cosmos.databases (CosmosChatMessageStore.account saved.2.2))
      Scenario.default_container = Some cont /\
    key.1 = "T1" /\
    Cosmos.items cont !! key = Some doc /\
    CosmosStoreState.construct doc = Ok d /\
    CosmosStoreState.messages d = [Scenario.A; Scenario.B].
Proof.
  intros s p saved. split; [reflexivity|].
  destruct (X13_serialize_state_stores_the_buffer [("user_id", PStr "user123")]
              s saved.2.1 p saved.2.2 "T1" eq_refl)
    as (_ & cont & key & doc & d & Hc & Hk & Hi & Hd & _ & _ & Hm).
  by exists cont, key, doc, d.
Defined.

(** X14. Write-through. When [add_messages] returns on a store with the
    eager-write policy, the buffer is the buffer before followed by the new
    messages, and the container of the store holds, under the thread
    identifier as id, the document of the thread with exactly that buffer. *)
Theorem X14_eager_add_messages_writes_through (msgs : list ChatMessage)
    (s s1 : CosmosChatMessageStore.t) (p p1 : CosmosChatMessageStore.Process) :
  CosmosChatMessageStore._save_one_every_message s = true ->
  CosmosChatMessageStore.add_messages msgs (s, p) = (Ok tt, (s1, p1)) ->
  CosmosChatMessageStore._messages p1 = CosmosChatMessageStore._messages p ++ msgs /\
  exists (cont : Cosmos.Container) (key : string * option string),
    Cosmos.find_container (Cosmos.databases (CosmosChatMessageStore.account p1))
      (CosmosChatMessageStore.database_name s, CosmosChatMessageStore.container_name s)
      = Some cont /\
    key.1 = CosmosChatMessageStore.thread_id s /\
    Cosmos.items cont !! key =
      Some (document (CosmosChatMessageStore.thread_id s)
              (CosmosChatMessageStore._messages p ++ msgs)).
Proof.
  intros Heager Hadd.
  pose proof (add_messages_buffer msgs s p) as Hbuf. rewrite Hadd in Hbuf.
  split; [exact Hbuf|].
  rewrite add_messages_eager, run_bind in Hadd by done.
  destruct (CosmosChatMessageStore.serialize_state [] _) as [[tok|e] [s' p']] eqn:Hsave;
    [|discriminate].
  injection Hadd as -> ->.
  apply serialize_state_ok in Hsave as (s0 & p0 & Hpersist & Ht & Hd & Hc & Hm).
  apply persist_ok in Hpersist as (_ & -> & cont & Hfind & ->).
  simpl in Hm. rewrite <- Ht, <- Hd, <- Hc, <- Hm.
  eexists _, (_, _). split; [by apply find_container_upserted|].
  split; [reflexivity|]. simpl. apply lookup_insert_eq.
Qed.

Lemma X14_eager_add_messages_writes_through_witness :
  let s := Scenario.store "T1" true false in
  let p := Scenario.process [Scenario.A] Scenario.ready_account in
  let out := CosmosChatMessageStore.add_messages [Scenario.B] (s, p) in
  out.1 = Ok tt /\
  exists cont key,
    Cosmos.find_container
      (Cosmos.databases (CosmosChatMessageStore.account out.2.2))
      Scenario.default_container = Some cont /\
    key.1 = "T1" /\
    Cosmos.items cont !! key = Some (document "T1" [Scenario.A; Scenario.B]).
Proof.
  intros s p out. split; [reflexivity|].
  exact (proj2 (X14_eager_add_messages_writes_through [Scenario.B]
                  s out.2.1 p out.2.2 eq_refl eq_refl)).
Defined.

(** ** Restoring *)

(** Without a thread identifier that is a string there is no state. *)
Lemma construct_needs_thread_id (values : Dict) :
  match dict_get "thread_id" values with Some (PStr _) => False | _ => True end ->
  CosmosStoreState.construct values = Raise ValidationError.
Proof.
  intros Hno. unfold CosmosStoreState.construct.
  assert (match dict_get "thread_id" (CosmosStoreState.set_id_from_thread_id values) with
          | Some (PStr _) => False | _ => True end) as Hno'.
  { unfold CosmosStoreState.set_id_from_thread_id, dict_mem.
    destruct (dict_get "thread_id" values) as [v|] eqn:Hv; simpl; [|by rewrite Hv].
    destruct (dict_get "id" values); simpl; [by rewrite Hv|].
    by rewrite dict_get_set_ne, Hv. }
  unfold CosmosStoreState.validate_fields, mbind, Result_bind.
  clear Hno.
  destruct (dict_get "thread_id" (CosmosStoreState.set_id_from_thread_id values))
    as [[]|]; try contradiction;
    by destruct (dict_get "id" (CosmosStoreState.set_id_from_thread_id values)) as [[]|].
Qed.

Section restoring.
Import CosmosChatMessageStore.

(** A [deserialize_state] that returns: what it read and what it left. *)
Lemma deserialize_state_ok (ref : CosmosStoreState.Input) (s s1 : t) (p p1 : Process) :
  deserialize_state ref (s, p) = (Ok tt, (s1, p1)) ->
  exists (r d : CosmosStoreState.t) (cont : Cosmos.Container) (item : Dict),
    CosmosStoreState.model_validate ref = Ok r /\
    next_fault (account p) = None /\
    Cosmos.find_container (Cosmos.databases (account p))
      (database_name s, container_name s) = Some cont /\
    Cosmos.items cont !! (CosmosStoreState.thread_id r, Some (CosmosStoreState.thread_id r))
      = Some item /\
    CosmosStoreState.construct item = Ok d /\
    s1 = restored (CosmosStoreState.thread_id d) s /\
    p1 = {| environ := environ p;
            _messages := _messages p ++ CosmosStoreState.messages d;
            account := served (account p) |}.
Proof.
  rewrite deserialize_state_run.
  destruct (CosmosStoreState.model_validate ref) as [r|e]; [|discriminate].
  rewrite read_item_run. simpl.
  destruct (next_fault _); [discriminate|].
  destruct (Cosmos.find_container _ _) as [cont|]; [|discriminate].
  destruct (Cosmos.items cont !! _) as [item|] eqn:Hi; [|discriminate].
  destruct (CosmosStoreState.construct item) as [d|e] eqn:Hd; [|discriminate].
  intros [= <- <-]. by exists r, d, cont, item.
Qed.
End restoring.

(** X15. [deserialize_state] reads and never writes: however it ends, the
    databases of the account are as before. When it raises, it has changed
    nothing of the store either: thread identifier, configuration and buffer
    are as before the call. *)
Theorem X15_deserialize_state_changes_nothing_on_error
    (ref : CosmosStoreState.Input)
    (s : CosmosChatMessageStore.t) (p : CosmosChatMessageStore.Process) :
  let out := CosmosChatMessageStore.deserialize_state ref (s, p) in
  Cosmos.databases (CosmosChatMessageStore.account out.2.2) =
    Cosmos.databases (CosmosChatMessageStore.account p) /\
  (forall e, out.1 = Raise e ->
     out.2.1 = s /\
     CosmosChatMessageStore._messages out.2.2 = CosmosChatMessageStore._messages p).
Proof.
  intros out. subst out. split; [apply (deserialize_state_no_write ref (s, p))|].
  rewrite deserialize_state_run.
  destruct (CosmosStoreState.model_validate ref) as [r|e0]; [|done].
  destruct (Cosmos.read_item _ _ _ _).1 as [item|e0]; [|done].
  destruct (CosmosStoreState.construct item) as [d|e0]; [|done].
  intros e. discriminate.
Qed.

Lemma X15_deserialize_state_changes_nothing_on_error_witness :
  let s := Scenario.store "T1" false false in
  let p := Scenario.process [Scenario.A] Scenario.saved_account in
  let out :=
    CosmosChatMessageStore.deserialize_state
      (CosmosStoreState.Mapping [("thread_id", PStr "T9")]) (s, p) in
  out.2.1 = s /\ CosmosChatMessageStore._messages out.2.2 = [Scenario.A].
Proof.
  intros s p out.
  exact (proj2 (X15_deserialize_state_changes_nothing_on_error
                  (CosmosStoreState.Mapping [("thread_id", PStr "T9")]) s p)
           _ eq_refl).
Defined.

(** X16. A reference that is a mapping without a thread identifier, or with
    one that is no string, ends [deserialize_state] with the validation error
    itself, before any request: the state, the pending outcomes of the
    network included, is as before. *)
Theorem X16_reference_without_thread_id (values : Dict)
    (s : CosmosChatMessageStore.t) (p : CosmosChatMessageStore.Process) :
  match dict_get "thread_id" values with Some (PStr _) => False | _ => True end ->
  CosmosChatMessageStore.deserialize_state (CosmosStoreState.Mapping values) (s, p) =
    (Raise ValidationError, (s, p)).
Proof.
  intros Hno. rewrite deserialize_state_run. simpl.
  by rewrite construct_needs_thread_id.
Qed.

Lemma X16_reference_without_thread_id_witness :
  let sp := (Scenario.store "T1" false false,
             Scenario.process [Scenario.A] Scenario.flaky_account) in
  CosmosChatMessageStore.deserialize_state
    (CosmosStoreState.Mapping [("id", PStr "T1")]) sp = (Raise ValidationError, sp).
Proof. intros sp. by apply X16_reference_without_thread_id. Defined.

(** X17. A stored document that fails validation ends [deserialize_state]
    with the validation error itself, not wrapped in a
    [ServiceResponseException]; the read was made, and store and buffer are
    as before. *)
Theorem X17_malformed_document_is_not_wrapped (ref : CosmosStoreState.Input)
    (r : CosmosStoreState.t) (cont : Cosmos.Container) (item : Dict) (e : Exn)
    (s : CosmosChatMessageStore.t) (p : CosmosChatMessageStore.Process) :
  CosmosStoreState.model_validate ref = Ok r ->
  next_fault (CosmosChatMessageStore.account p) = None ->
  Cosmos.find_container (Cosmos.databases (CosmosChatMessageStore.account p))
    (CosmosChatMessageStore.database_name s, CosmosChatMessageStore.container_name s)
    = Some cont ->
  Cosmos.items cont !! (CosmosStoreState.thread_id r, Some (CosmosStoreState.thread_id r))
    = Some item ->
  CosmosStoreState.construct item = Raise e ->
  CosmosChatMessageStore.deserialize_state ref (s, p) =
    (Raise e, (s, with_account (served (CosmosChatMessageStore.account p)) p)).
Proof.
  intros Hr Hnet Hc Hi He.
  rewrite deserialize_state_run, Hr, read_item_run, Hnet, Hc, Hi. simpl.
  by rewrite He.
Qed.

Lemma X17_malformed_document_is_not_wrapped_witness :
  let cont :=
    {| Cosmos.partition_key := "/thread_id";
       Cosmos.items := {[ ("T1", Some "T1") :=
                            [("id", PStr "T1"); ("thread_id", PStr "T1");
                             ("messages", PStr "none")] ]} |} in
  let acc :=
    {| Cosmos.databases :=
         {[ CosmosChatMessageStore.default_database_name :=
              {[ CosmosChatMessageStore.default_container_name := cont ]} ]};
       Cosmos.faults := [] |} in
  let s := Scenario.store "T0" false false in
  let p := Scenario.process [Scenario.A] acc in
  CosmosChatMessageStore.deserialize_state
    (CosmosStoreState.Mapping [("thread_id", PStr "T1")]) (s, p) =
  (Raise ValidationError, (s, p)).
Proof.
  intros cont acc s p.
  exact (X17_malformed_document_is_not_wrapped
           (CosmosStoreState.Mapping [("thread_id", PStr "T1")])
           {| CosmosStoreState.id := Some "T1";
              CosmosStoreState.thread_id := "T1";
              CosmosStoreState.additional_properties := [];
              CosmosStoreState.messages := [] |}
           cont _ ValidationError s p eq_refl eq_refl eq_refl eq_refl eq_refl).
Defined.

(** X18. Restoring twice duplicates: after a [deserialize_state] that
    returned, the same call again, served by the network, returns too and
    appends the messages of the document a second time; the thread identifier
    stays the one of the document. *)
Theorem X18_second_restore_appends_again (ref : CosmosStoreState.Input)
    (s s1 : CosmosChatMessageStore.t) (p p1 : CosmosChatMessageStore.Process) :
  CosmosChatMessageStore.deserialize_state ref (s, p) = (Ok tt, (s1, p1)) ->
  next_fault (CosmosChatMessageStore.account p1) = None ->
  exists (loaded : list ChatMessage) (p2 : CosmosChatMessageStore.Process),
    CosmosChatMessageStore._messages p1 = CosmosChatMessageStore._messages p ++ loaded /\
    CosmosChatMessageStore.deserialize_state ref (s1, p1) = (Ok tt, (s1, p2)) /\
    CosmosChatMessageStore._messages p2 =
      CosmosChatMessageStore._messages p ++ loaded ++ loaded.
Proof.
  intros Hfirst Hnet.
  apply deserialize_state_ok in Hfirst
    as (r & d & cont & item & Hr & _ & Hc & Hi & Hd & -> & ->).
  exists (CosmosStoreState.messages d). eexists. split; [reflexivity|].
  rewrite deserialize_state_run, Hr, read_item_run. simpl in *.
  rewrite Hnet, Hc, Hi, Hd.
  split; [reflexivity|]. simpl. by rewrite <- app_assoc.
Qed.

Lemma X18_second_restore_appends_again_witness :
  let ref := CosmosStoreState.Mapping [("thread_id", PStr "T1")] in
  let s := Scenario.store "T0" false false in
  let p := Scenario.process [] Scenario.saved_account in
  let first := CosmosChatMessageStore.deserialize_state ref (s, p) in
  let second := CosmosChatMessageStore.deserialize_state ref first.2 in
  first.1 = Ok tt /\ second.1 = Ok tt /\
  CosmosChatMessageStore._messages second.2.2 =
    [Scenario.A; Scenario.B; Scenario.A; Scenario.B].
Proof.
  intros ref s p first second.
  destruct (X18_second_restore_appends_again ref s first.2.1 p first.2.2 eq_refl eq_refl)
    as (loaded & p2 & _ & _ & _).
  repeat split; reflexivity.
Defined.

(** ** The persisted-state model, further *)

(** X19. An id that is given is kept as given: the validator derives
    nothing, so the id of the constructed state is the given string, also
    when it differs from the thread identifier, and it is [None] when [None]
    was given, also when there is a thread identifier. *)
Theorem X19_explicit_id_is_kept (values : Dict) (st : CosmosStoreState.t) :
  dict_mem "id" values = true ->
  CosmosStoreState.construct values = Ok st ->
  CosmosStoreState.id st =
    match dict_get "id" values with Some (PStr i) => Some i | _ => None end.
Proof.
  intros Hid Hc. unfold CosmosStoreState.construct in Hc.
  rewrite set_id_from_thread_id_explicit in Hc by done.
  apply validate_fields_ok in Hc as [_ Hc].
  by destruct (dict_get "id" values) as [[]|].
Qed.

Lemma X19_explicit_id_is_kept_witness :
  (exists st,
     CosmosStoreState.construct [("id", PStr "doc-7"); ("thread_id", PStr "T1")] = Ok st /\
     CosmosStoreState.id st = Some "doc-7" /\ CosmosStoreState.thread_id st = "T1") /\
  (exists st,
     CosmosStoreState.construct [("id", PNone); ("thread_id", PStr "T1")] = Ok st /\
     CosmosStoreState.id st = None).
Proof.
  split; eexists; (split; [reflexivity|]).
  - split; [|reflexivity].
    by rewrite (X19_explicit_id_is_kept [("id", PStr "doc-7"); ("thread_id", PStr "T1")]).
  - by rewrite (X19_explicit_id_is_kept [("id", PNone); ("thread_id", PStr "T1")]).
Defined.

(** X20. Values without a thread identifier, or with one that is no string,
    construct no state: the construction fails with the validation error,
    whatever the other values are. *)
Theorem X20_thread_id_is_required (values : Dict) :
  match dict_get "thread_id" values with Some (PStr _) => False | _ => True end ->
  CosmosStoreState.construct values = Raise ValidationError /\
  CosmosStoreState.model_validate (CosmosStoreState.Mapping values) = Raise ValidationError.
Proof. intros H. split; by apply construct_needs_thread_id. Qed.

Lemma X20_thread_id_is_required_witness :
  CosmosStoreState.construct [("id", PStr "T1"); ("messages", PList [])] =
    Raise ValidationError /\
  CosmosStoreState.construct [("thread_id", PInt 7)] = Raise ValidationError.
Proof.
  split.
  - by apply (X20_thread_id_is_required [("id", PStr "T1"); ("messages", PList [])]).
  - by apply (X20_thread_id_is_required [("thread_id", PInt 7)]).
Defined.

(** X21. The validator [set_id_from_thread_id] changes at most the entry
    [id]: every other key reads as before; and it is idempotent. *)
Theorem X21_validator_touches_only_id (values : Dict) :
  (forall k, k <> "id" ->
     dict_get k (CosmosStoreState.set_id_from_thread_id values) = dict_get k values) /\
  CosmosStoreState.set_id_from_thread_id (CosmosStoreState.set_id_from_thread_id values) =
    CosmosStoreState.set_id_from_thread_id values.
Proof.
  unfold CosmosStoreState.set_id_from_thread_id at 1 3 4.
  destruct (dict_mem "thread_id" values && negb (dict_mem "id" values)) eqn:E.
  - apply andb_prop in E as [Ht Hi]. unfold dict_mem in Ht.
    destruct (dict_get "thread_id" values) as [v|] eqn:Hv; [|discriminate].
    split.
    + intros k Hk. by apply dict_get_set_ne.
    + apply set_id_from_thread_id_explicit. unfold dict_mem.
      by rewrite dict_get_set_eq.
  - split; [done|]. unfold CosmosStoreState.set_id_from_thread_id. by rewrite E.
Qed.

(** ** Construction, further *)

(** X22. The thread identifier of a constructed store is the one given when
    that is a non-empty string, and otherwise the fresh uuid: [None] and the
    empty string both count as not given. So it is never empty, the uuid
    being non-empty. *)
Theorem X22_thread_id_is_given_or_fresh (database_name container_name : PyVal)
    (partition_key : string) (thread_id : option string)
    (save_one_every_message create_container_and_database : bool) (uuid : string)
    (p : CosmosChatMessageStore.Process) (st : CosmosChatMessageStore.t) :
  (CosmosChatMessageStore.__init__ database_name container_name partition_key
     thread_id save_one_every_message create_container_and_database uuid p).1 = Ok st ->
  CosmosChatMessageStore.thread_id st =
    match thread_id with
    | Some "" | None => uuid
    | Some given => given
    end /\
  (uuid <> "" -> CosmosChatMessageStore.thread_id st <> "") /\
  CosmosChatMessageStore.partition_key st = partition_key /\
  CosmosChatMessageStore._save_one_every_message st = save_one_every_message /\
  CosmosChatMessageStore._create_container_and_database st = create_container_and_database.
Proof.
  unfold CosmosChatMessageStore.__init__.
  destruct (CosmosDBNoSqlSettings.construct _ _ _) as [settings|[]]; try discriminate.
  simpl. intros [= <-]. simpl.
  destruct thread_id as [[|a given]|]; simpl; repeat split; try done.
Qed.

Lemma X22_thread_id_is_given_or_fresh_witness :
  let new tid :=
    (CosmosChatMessageStore.__init__
       (PStr "db") (PStr "c") "/thread_id" tid false false "uuid-1"
       (Scenario.process [] Scenario.empty_account)).1 in
  (exists st, new (Some "") = Ok st /\ CosmosChatMessageStore.thread_id st = "uuid-1") /\
  (exists st, new (Some "T1") = Ok st /\ CosmosChatMessageStore.thread_id st = "T1").
Proof.
  intros new. split; eexists; (split; [reflexivity|]).
  - exact (proj1 (X22_thread_id_is_given_or_fresh (PStr "db") (PStr "c") "/thread_id"
                    (Some "") false false "uuid-1"
                    (Scenario.process [] Scenario.empty_account) _ eq_refl)).
  - exact (proj1 (X22_thread_id_is_given_or_fresh (PStr "db") (PStr "c") "/thread_id"
                    (Some "T1") false false "uuid-1"
                    (Scenario.process [] Scenario.empty_account) _ eq_refl)).
Defined.

(** ** What no call changes *)

Section sessions.
Import CosmosChatMessageStore.

(** One call: the configuration stays, the buffer at most grows at its end,
    and the thread identifier stays unless the call is a restore. *)
Lemma call_invariants (c : Call) (s : State) :
  database_name (call c s).1 = database_name s.1 /\
  container_name (call c s).1 = container_name s.1 /\
  partition_key (call c s).1 = partition_key s.1 /\
  _save_one_every_message (call c s).1 = _save_one_every_message s.1 /\
  _messages s.2 `prefix_of` _messages (call c s).2 /\
  (match c with DeserializeState _ => True
   | _ => thread_id (call c s).1 = thread_id s.1 end).
Proof.
  destruct s as [s0 p]. destruct c as [msgs| |ref|kwargs]; simpl.
  - destruct (_save_one_every_message s0) eqn:E.
    + pose proof (add_messages_buffer msgs s0 p) as Hbuf.
      rewrite add_messages_eager in * by done. rewrite run_bind in *.
      match goal with
      | |- context [serialize_state [] ?sp] =>
          destruct (serialize_state_serialize [] sp) as [_ Ht Hd Hc Hp He _ _];
          destruct (serialize_state [] sp) as [[tok|e] [s' p']]
      end; simpl in *; rewrite Hbuf; repeat split; try congruence;
        by apply prefix_app_r.
    + rewrite add_messages_lazy by done. simpl. repeat split; try done.
      by apply prefix_app_r.
  - done.
  - destruct (deserialize_state_configuration ref (s0, p)) as [Hd Hc Hp He _].
    repeat split; try done.
    rewrite deserialize_state_run.
    destruct (CosmosStoreState.model_validate ref) as [r|e]; [|done].
    destruct (Cosmos.read_item _ _ _ _).1 as [item|e]; [|done].
    destruct (CosmosStoreState.construct item) as [d|e]; [|done].
    simpl. by apply prefix_app_r.
  - destruct (serialize_state_serialize kwargs (s0, p)) as [Hb Ht Hd Hc Hp He _ _].
    simpl in *. repeat split; try done. by rewrite Hb.
Qed.

Lemma session_invariants (cs : list Call) (s : State) :
  database_name (session cs s).1 = database_name s.1 /\
  container_name (session cs s).1 = container_name s.1 /\
  partition_key (session cs s).1 = partition_key s.1 /\
  _save_one_every_message (session cs s).1 = _save_one_every_message s.1 /\
  _messages s.2 `prefix_of` _messages (session cs s).2 /\
  (forallb (fun c => match c with DeserializeState _ => false | _ => true end) cs = true ->
   thread_id (session cs s).1 = thread_id s.1).
Proof.
  revert s. induction cs as [|c cs IH]; intros s; [done|].
  destruct (call_invariants c s) as (Hd & Hc & Hp & He & Hb & Ht).
  destruct (IH (call c s)) as (Hd' & Hc' & Hp' & He' & Hb' & Ht').
  simpl. repeat split; try congruence.
  - by etransitivity.
  - intros H. apply andb_prop in H as [H1 H2]. rewrite Ht' by done.
    by destruct c.
Qed.
End sessions.

(** X23. No call changes the configuration of a store: over any session of
    [add_messages], [list_messages], [deserialize_state] and
    [serialize_state], however the calls end, the database name, the
    container name, the partition key path and the eager-write flag stay
    what construction made them; and the thread identifier changes in a
    restore only. *)
Theorem X23_configuration_is_immutable (cs : list Call)
    (s : CosmosChatMessageStore.State) :
  CosmosChatMessageStore.database_name (session cs s).1 =
    CosmosChatMessageStore.database_name s.1 /\
  CosmosChatMessageStore.container_name (session cs s).1 =
    CosmosChatMessageStore.container_name s.1 /\
  CosmosChatMessageStore.partition_key (session cs s).1 =
    CosmosChatMessageStore.partition_key s.1 /\
  CosmosChatMessageStore._save_one_every_message (session cs s).1 =
    CosmosChatMessageStore._save_one_every_message s.1 /\
  (forallb (fun c => match c with DeserializeState _ => false | _ => true end) cs = true ->
   CosmosChatMessageStore.thread_id (session cs s).1 =
     CosmosChatMessageStore.thread_id s.1).
Proof.
  destruct (session_invariants cs s) as (Hd & Hc & Hp & He & _ & Ht). done.
Qed.

Lemma X23_configuration_is_immutable_witness :
  let s := (Scenario.store "T1" true true,
            Scenario.process [] Scenario.flaky_account) in
  let cs := [AddMessages [Scenario.A]; SerializeState []; AddMessages [Scenario.B];
             ListMessages] in
  CosmosChatMessageStore.thread_id (session cs s).1 = "T1".
Proof.
  intros s cs.
  exact (proj2 (proj2 (proj2 (proj2 (X23_configuration_is_immutable cs s)))) eq_refl).
Defined.

(** X24. No call drops or reorders a message: over any session of calls,
    however they end, the buffer before is a prefix of the buffer after. *)
Theorem X24_buffer_only_grows (cs : list Call) (s : CosmosChatMessageStore.State) :
  CosmosChatMessageStore._messages s.2 `prefix_of`
  CosmosChatMessageStore._messages (session cs s).2.
Proof.
  destruct (session_invariants cs s) as (_ & _ & _ & _ & Hb & _). done.
Qed.

(** X25. [deserialize_state] finds the document by the thread identifier of
    the reference alone: two references with the same thread identifier,
    whatever their ids and other fields, leave the same state, and one
    returns exactly when the other does. *)
Theorem X25_reference_is_its_thread_id (ref1 ref2 : CosmosStoreState.Input)
    (r1 r2 : CosmosStoreState.t)
    (s : CosmosChatMessageStore.t) (p : CosmosChatMessageStore.Process) :
  CosmosStoreState.model_validate ref1 = Ok r1 ->
  CosmosStoreState.model_validate ref2 = Ok r2 ->
  CosmosStoreState.thread_id r1 = CosmosStoreState.thread_id r2 ->
  (CosmosChatMessageStore.deserialize_state ref1 (s, p)).2 =
  (CosmosChatMessageStore.deserialize_state ref2 (s, p)).2 /\
  ((CosmosChatMessageStore.deserialize_state ref1 (s, p)).1 = Ok tt <->
   (CosmosChatMessageStore.deserialize_state ref2 (s, p)).1 = Ok tt).
Proof.
  intros H1 H2 Ht. rewrite !deserialize_state_run, H1, H2, Ht.
  destruct (Cosmos.read_item _ _ _ _).1 as [item|e]; [|done].
  by destruct (CosmosStoreState.construct item) as [d|e].
Qed.

Lemma X25_reference_is_its_thread_id_witness :
  let s := Scenario.store "T0" false false in
  let p := Scenario.process [] Scenario.saved_account in
  (CosmosChatMessageStore.deserialize_state
     (CosmosStoreState.Mapping [("id", PStr "other"); ("thread_id", PStr "T1")]) (s, p)).2 =
  (CosmosChatMessageStore.deserialize_state
     (CosmosStoreState.Mapping [("thread_id", PStr "T1")]) (s, p)).2.
Proof.
  intros s p.
  exact (proj1 (X25_reference_is_its_thread_id
                  (CosmosStoreState.Mapping [("id", PStr "other"); ("thread_id", PStr "T1")])
                  (CosmosStoreState.Mapping [("thread_id", PStr "T1")])
                  {| CosmosStoreState.id := Some "other";
                     CosmosStoreState.thread_id := "T1";
                     CosmosStoreState.additional_properties := [];
                     CosmosStoreState.messages := [] |}
                  {| CosmosStoreState.id := Some "T1";
                     CosmosStoreState.thread_id := "T1";
                     CosmosStoreState.additional_properties := [];
                     CosmosStoreState.messages := [] |}
                  s p eq_refl eq_refl eq_refl)).
Defined.
